(** * slurmy: the Slurm backend (slurmy/backends/slurm.py)

    A shallow embedding of the [Slurm] backend class and of the batched
    listener returned by [Slurm.get_listen_func], with the properties of
    command construction, of the parsing of [sbatch] and [sacct] output and
    of the polling loop.

    Python objects are embedded as follows.
    - [str] is [string]; only the byte-level (ASCII) behaviour of the string
      methods is modelled.
    - a value that may be [None] is an [option].
    - [dict] is a [gmap]; [OrderedDict] is an association list, since its
      order is observable; a [set] is its insertion history together with an
      iteration order that the language leaves unspecified (class [SetOrder]).
    - an exception is the [Raise] outcome of a computation; the object and
      the outside world (child processes, the shell, the results queue) are
      threaded through a state monad. *)

From Stdlib Require Import Ascii String ZArith Decimal DecimalString DecimalPos DecimalZ.
From stdpp Require Import gmap strings list fin_maps sorting.

Local Open Scope string_scope.
Local Open Scope Z_scope.

(** ** Python string primitives *)

Definition NL : ascii := "010"%char.
Definition SPACE : ascii := " "%char.
Definition PIPE : ascii := "|"%char.

(** [s.split(sep)] for a separator of one character: every occurrence of
    [sep] ends a field, so the result is never empty and adjacent separators
    give empty fields. *)
Fixpoint split (sep : ascii) (s : string) : list string :=
  match s with
  | EmptyString => [EmptyString]
  | String c s' =>
      if Ascii.eqb c sep then EmptyString :: split sep s'
      else match split sep s' with
           | [] => [String c EmptyString]
           | w :: ws => String c w :: ws
           end
  end.

(** [s.rstrip(c)] for one character [c]: drops the longest suffix made of
    [c] only. *)
Fixpoint rstrip (c : ascii) (s : string) : string :=
  match s with
  | EmptyString => EmptyString
  | String a s' =>
      match rstrip c s' with
      | EmptyString => if Ascii.eqb a c then EmptyString else String a EmptyString
      | r => String a r
      end
  end.

(** [sub in s]: [sub] occurs in [s] as a substring. *)
Fixpoint contains (sub s : string) : bool :=
  String.prefix sub s ||
  match s with
  | EmptyString => false
  | String _ s' => contains sub s'
  end.

(** [sep.join(l)]. *)
Fixpoint join (sep : string) (l : list string) : string :=
  match l with
  | [] => EmptyString
  | [w] => w
  | w :: ws => w ++ sep ++ join sep ws
  end.

(** Truth value of an optional string: [None] and the empty string are
    false. *)
Definition truthy (o : option string) : bool :=
  match o with
  | None | Some EmptyString => false
  | Some _ => true
  end.

(** *** [int(s)] on a string

    Surrounding whitespace (tab, line feed, vertical tab, form feed,
    carriage return and space) is ignored, one sign is allowed, and the
    digits may be grouped by single underscores. *)

Definition is_space (c : ascii) : bool :=
  let n := nat_of_ascii c in
  ((9 <=? n) && (n <=? 13) || (n =? 32))%nat.

Definition is_digit (c : ascii) : bool :=
  let n := nat_of_ascii c in ((48 <=? n) && (n <=? 57))%nat.

Definition digit_val (c : ascii) : Z := Z.of_nat (nat_of_ascii c) - 48.

Fixpoint lstrip_ws (s : string) : string :=
  match s with
  | String c s' => if is_space c then lstrip_ws s' else s
  | EmptyString => EmptyString
  end.

Fixpoint rstrip_ws (s : string) : string :=
  match s with
  | EmptyString => EmptyString
  | String a s' =>
      match rstrip_ws s' with
      | EmptyString => if is_space a then EmptyString else String a EmptyString
      | r => String a r
      end
  end.

(** [after_digit] tells whether the previous character was a digit: an
    underscore is accepted only there, and the literal cannot end on one. *)
Fixpoint int_digits (s : string) (acc : Z) (after_digit : bool) : option Z :=
  match s with
  | EmptyString => if after_digit then Some acc else None
  | String c s' =>
      if is_digit c then int_digits s' (10 * acc + digit_val c) true
      else if Ascii.eqb c "_"%char && after_digit then int_digits s' acc false
      else None
  end.

Definition py_int (s : string) : option Z :=
  match lstrip_ws (rstrip_ws s) with
  | String "+" r => int_digits r 0 false
  | String "-" r => Z.opp <$> int_digits r 0 false
  | r => int_digits r 0 false
  end.

(** *** [shlex.split(s)]

    POSIX mode with [whitespace_split] and without comments, as
    [shlex.split] configures the lexer.  The lexer is either between tokens,
    inside a word, inside a quotation, or just after a backslash, in which
    case it remembers where to return. *)

Definition QUOTE1 : ascii := "039"%char.
Definition QUOTE2 : ascii := "034"%char.
Definition BACKSLASH : ascii := "092"%char.

Inductive exn :=
  | ValueError
  | KeyError
  | IndexError
  | CalledProcessError
  | FileNotFoundError.

Inductive outcome (A : Type) :=
  | Return (a : A)
  | Raise (e : exn).
Arguments Return {A} a.
Arguments Raise {A} e.

Definition omap_outcome {A B} (f : A -> B) (o : outcome A) : outcome B :=
  match o with
  | Return a => Return (f a)
  | Raise e => Raise e
  end.

Definition obind {A B} (o : outcome A) (k : A -> outcome B) : outcome B :=
  match o with
  | Return a => k a
  | Raise e => Raise e
  end.

Inductive lex_mode :=
  | LWhite
  | LWord
  | LQuote (q : ascii)
  | LEscape (back : option ascii).

Definition shlex_ws (c : ascii) : bool :=
  Ascii.eqb c " " || Ascii.eqb c "009" || Ascii.eqb c "013" || Ascii.eqb c "010".

Definition shlex_quote (c : ascii) : bool := Ascii.eqb c QUOTE1 || Ascii.eqb c QUOTE2.

Definition snoc (tok : string) (c : ascii) : string := tok ++ String c EmptyString.

Fixpoint shlex_go (s : string) (mode : lex_mode) (tok : string) (quoted : bool)
  : outcome (list string) :=
  match s with
  | EmptyString =>
      match mode with
      | LWhite => Return []
      | LWord =>
          match tok, quoted with
          | EmptyString, false => Return []
          | _, _ => Return [tok]
          end
      | LQuote _ => Raise ValueError
      | LEscape _ => Raise ValueError
      end
  | String c s' =>
      match mode with
      | LWhite =>
          if shlex_ws c then shlex_go s' LWhite EmptyString false
          else if Ascii.eqb c BACKSLASH then shlex_go s' (LEscape None) EmptyString false
          else if shlex_quote c then shlex_go s' (LQuote c) EmptyString false
          else shlex_go s' LWord (String c EmptyString) false
      | LQuote q =>
          if Ascii.eqb c q then shlex_go s' LWord tok true
          else if Ascii.eqb c BACKSLASH && Ascii.eqb q QUOTE2
               then shlex_go s' (LEscape (Some q)) tok true
          else shlex_go s' (LQuote q) (snoc tok c) true
      | LEscape None => shlex_go s' LWord (snoc tok c) quoted
      | LEscape (Some q) =>
          if negb (Ascii.eqb c BACKSLASH) && negb (Ascii.eqb c q)
          then shlex_go s' (LQuote q) (snoc (snoc tok BACKSLASH) c) quoted
          else shlex_go s' (LQuote q) (snoc tok c) quoted
      | LWord =>
          if shlex_ws c then
            match tok, quoted with
            | EmptyString, false => shlex_go s' LWhite EmptyString false
            | _, _ => omap_outcome (cons tok) (shlex_go s' LWhite EmptyString false)
            end
          else if shlex_quote c then shlex_go s' (LQuote c) tok quoted
          else if Ascii.eqb c BACKSLASH then shlex_go s' (LEscape None) tok quoted
          else shlex_go s' LWord (snoc tok c) quoted
      end
  end.

Definition shlex_split (s : string) : outcome (list string) :=
  shlex_go s LWhite EmptyString false.

(** [str(n)] for an integer and [format] of a value that may be [None]. *)
Definition str_of_int (n : Z) : string := NilZero.string_of_int (Z.to_int n).

Definition fmt_int (o : option Z) : string :=
  match o with
  | None => "None"
  | Some n => str_of_int n
  end.

Definition truthy_int (o : option Z) : bool :=
  match o with
  | None | Some 0 => false
  | Some _ => true
  end.

(** ** The job object and the outside world *)

(** [tools.defs.Status]: the two members this module uses. *)
Inductive Status := RUNNING | FINISHED.

(** [run_args] is either one string or a sequence of strings. *)
Inductive args :=
  | ArgStr (s : string)
  | ArgSeq (l : list string).

(** The attributes that [Slurm.__init__] creates. *)
Record Slurm := {
  name : option string;
  log : option string;
  run_script : option string;
  run_args : option args;
  partition : option string;
  clusters : option string;
  qos : option string;
  exclude : option string;
  mem : option string;
  time : option string;
  export : option string;
  _job_id : option Z;
  _exitcode : option string
}.

Definition __init__ (name log run_script : option string) (run_args : option args)
    (partition exclude clusters qos mem time export : option string) : Slurm :=
  {| name := name; log := log; run_script := run_script; run_args := run_args;
     partition := partition; clusters := clusters; qos := qos; exclude := exclude;
     mem := mem; time := time; export := export;
     _job_id := None; _exitcode := None |}.

Definition set_job_id (j : Z) (o : Slurm) : Slurm :=
  {| name := name o; log := log o; run_script := run_script o; run_args := run_args o;
     partition := partition o; clusters := clusters o; qos := qos o; exclude := exclude o;
     mem := mem o; time := time o; export := export o;
     _job_id := Some j; _exitcode := _exitcode o |}.

Definition set_exitcode (e : string) (o : Slurm) : Slurm :=
  {| name := name o; log := log o; run_script := run_script o; run_args := run_args o;
     partition := partition o; clusters := clusters o; qos := qos o; exclude := exclude o;
     mem := mem o; time := time o; export := export o;
     _job_id := _job_id o; _exitcode := Some e |}.

(** One entry of the mapping that the listener publishes:
    [{'status': ..., 'exitcode': ...}]. *)
Record job_result := { res_status : Status; res_exitcode : string }.

(** The fate of one call of [subprocess.check_output]: the child process
    exits with status zero after printing [out]; it exits with another
    status; the program cannot be started; or the call is refused before
    anything is started, as it is for an empty argument vector. *)
Inductive proc :=
  | Prints (out : string)
  | Fails
  | Missing
  | Refused.

(** The world outside the interpreter.  [proc_out n] is the fate of the
    [n]-th call of [subprocess.check_output]; [spawned] lists the argument
    vectors of the calls made so far, [shell] the command lines given to
    [os.system], [queue] the mappings put on the results queue and [slept] the
    intervals slept. *)
Record world := {
  proc_out : nat -> proc;
  spawned : list (list string);
  shell : list string;
  queue : list (list (Z * job_result));
  slept : list Z
}.

(** A method runs on the object and the world.  [calls] is ghost state: no
    source line reads or writes it; it records, in order, the outcome of
    every call of [status] so that statements can speak about the calls made
    so far. *)
Record state := {
  self : Slurm;
  env : world;
  calls : list (outcome Status)
}.

(** Computations that may raise and that change a state of type [S]; the
    state survives an exception, as a mutated Python object does. *)
Definition M (S A : Type) : Type := S -> outcome A * S.

Definition ret {S A} (a : A) : M S A := fun s => (Return a, s).
Definition raise {S A} (e : exn) : M S A := fun s => (Raise e, s).
Definition bind {S A B} (m : M S A) (k : A -> M S B) : M S B :=
  fun s => match m s with
           | (Return a, s') => k a s'
           | (Raise e, s') => (Raise e, s')
           end.
Definition lift {S A} (o : outcome A) : M S A := fun s => (o, s).
Definition get {S} : M S S := fun s => (Return s, s).
Definition modify {S} (f : S -> S) : M S unit := fun s => (Return tt, f s).

Notation "'let!' x := m 'in' k" := (bind m (fun x => k))
  (at level 10, x name, m at level 100, k at level 200).
Notation "m ;; k" := (bind m (fun _ => k))
  (at level 100, k at level 200, right associativity).

(** Runs a computation on the world inside a method. *)
Definition in_env {A} (m : M world A) : M state A :=
  fun s => let (r, w) := m (env s) in
           (r, {| self := self s; env := w; calls := calls s |}).

Definition update_self (f : Slurm -> Slurm) : M state unit :=
  modify (fun s => {| self := f (self s); env := env s; calls := calls s |}).

(** [subprocess.check_output(argv, universal_newlines = True)]: one more
    call; its output, or [CalledProcessError] for a process that failed,
    [FileNotFoundError] for a program that is missing and [IndexError] for a
    call that is refused. *)
Definition check_output (argv : list string) : M world string :=
  fun w => (match proc_out w (length (spawned w)) with
            | Prints out => Return out
            | Fails => Raise CalledProcessError
            | Missing => Raise FileNotFoundError
            | Refused => Raise IndexError
            end,
            {| proc_out := proc_out w; spawned := spawned w ++ [argv];
               shell := shell w; queue := queue w; slept := slept w |}).

(** [os.system(command)]; the exit status is ignored by the caller. *)
Definition os_system (command : string) : M world unit :=
  modify (fun w => {| proc_out := proc_out w; spawned := spawned w;
                      shell := shell w ++ [command]; queue := queue w;
                      slept := slept w |}).

(** [results.put(res_dict)]. *)
Definition results_put (d : list (Z * job_result)) : M world unit :=
  modify (fun w => {| proc_out := proc_out w; spawned := spawned w;
                      shell := shell w; queue := queue w ++ [d];
                      slept := slept w |}).

(** [time.sleep(interval)]: a negative interval is refused with
    [ValueError]. *)
Definition time_sleep (interval : Z) : M world unit :=
  fun w =>
    if decide (interval < 0) then (Raise ValueError, w)
    else (Return tt,
          {| proc_out := proc_out w; spawned := spawned w; shell := shell w;
             queue := queue w; slept := slept w ++ [interval] |}).

(** What this module takes from the rest of the package: the command
    wrapping hook [Base._get_command(command, Slurm.bid)], the rendering by
    [format] of [self.wrapper.get(run_script)], and [options.Main.user]. *)
Class Collaborators := {
  get_command : string -> string;
  wrapper_get : option string -> string;
  user : option string
}.

(** Iteration over a [set]: the order is a function of the insertion history
    that the language does not specify; every member comes once. *)
Class SetOrder := {
  iter_set : list Z -> list Z;
  iter_set_NoDup : forall l, NoDup (iter_set l);
  iter_set_elem : forall l x, x ∈ iter_set l <-> x ∈ l
}.

(** [Slurm._run_states]. *)
Definition _run_states : gset string := {[ "PENDING"; "RUNNING" ]}.

Definition in_run_states (s : string) : bool := bool_decide (s ∈ _run_states).

(** [format] of an optional string. *)
Definition fmt (o : option string) : string :=
  match o with
  | None => "None"
  | Some s => s
  end.

Definition truthy_args (a : option args) : bool :=
  match a with
  | None | Some (ArgStr EmptyString) | Some (ArgSeq []) => false
  | Some _ => true
  end.

(** [l[i]] on a list. *)
Definition index {A} (l : list A) (i : nat) : outcome A :=
  match l !! i with
  | Some x => Return x
  | None => Raise IndexError
  end.

(** [int(s)], raising [ValueError] on a malformed literal. *)
Definition int (s : string) : outcome Z :=
  match py_int s with
  | Some n => Return n
  | None => Raise ValueError
  end.

(** [d[k]] on a [dict]. *)
Definition getitem `{Countable K} {V} (d : gmap K V) (k : K) : outcome V :=
  match d !! k with
  | Some v => Return v
  | None => Raise KeyError
  end.

(** ** The methods of [Slurm] *)

Section Methods.
Context {collab : Collaborators}.

(** The command line assembled by [_get_submit_command] before it is wrapped
    and split. *)
Definition submit_line (o : Slurm) : string :=
  let submit_command := "sbatch " in
  let submit_command :=
    if truthy (name o) then submit_command ++ "-J " ++ fmt (name o) ++ " " else submit_command in
  let submit_command :=
    if truthy (log o) then submit_command ++ "-o " ++ fmt (log o) ++ " " else submit_command in
  let submit_command :=
    if truthy (partition o) then submit_command ++ "-p " ++ fmt (partition o) ++ " "
    else submit_command in
  let submit_command :=
    if truthy (exclude o) then submit_command ++ "-x " ++ fmt (exclude o) ++ " "
    else submit_command in
  let submit_command :=
    if truthy (clusters o) then submit_command ++ "-M " ++ fmt (clusters o) ++ " "
    else submit_command in
  let submit_command :=
    if truthy (qos o) then submit_command ++ "--qos=" ++ fmt (qos o) ++ " " else submit_command in
  let submit_command :=
    if truthy (mem o) then submit_command ++ "--mem=" ++ fmt (mem o) ++ " " else submit_command in
  let submit_command :=
    if truthy (time o) then submit_command ++ "--time=" ++ fmt (time o) ++ " "
    else submit_command in
  let submit_command :=
    if truthy (export o) then submit_command ++ "--export=" ++ fmt (export o) ++ " "
    else submit_command in
  let run_script := wrapper_get (run_script o) in
  let submit_command := submit_command ++ run_script ++ " " in
  if truthy_args (run_args o) then
    match run_args o with
    | Some (ArgStr a) => submit_command ++ a
    | Some (ArgSeq l) => submit_command ++ join " " l
    | None => submit_command
    end
  else submit_command.

Definition _get_submit_command (o : Slurm) : outcome (list string) :=
  let submit_command := submit_line o in
  let submit_command := get_command submit_command in
  shlex_split submit_command.

Definition submit : M state Z :=
  let! s := get in
  let! submit_list := lift (_get_submit_command (self s)) in
  let! submit_string := in_env (check_output submit_list) in
  let! field := lift (index (split SPACE submit_string) 3) in
  let! job_id := lift (int (rstrip NL field)) in
  update_self (set_job_id job_id) ;;
  ret job_id.

Definition cancel : M state unit :=
  let! s := get in
  let cancel_command := "scancel " ++ fmt_int (_job_id (self s)) in
  let cancel_command := get_command cancel_command in
  in_env (os_system cancel_command).

Definition sacct_line (column : string) (job_id : option Z)
    (user partition clusters : option string) : string :=
  let sacct_command := "sacct " in
  let sacct_command :=
    if truthy partition then sacct_command ++ "-r " ++ fmt partition ++ " " else sacct_command in
  let sacct_command :=
    if truthy clusters then sacct_command ++ "-M " ++ fmt clusters ++ " " else sacct_command in
  let sacct_command :=
    if truthy_int job_id then sacct_command ++ "-j " ++ fmt_int job_id ++ " " else sacct_command in
  let sacct_command :=
    if truthy user then sacct_command ++ "-u " ++ fmt user ++ " " else sacct_command in
  sacct_command ++ "-P -o " ++ column.

Definition _get_sacct_command (column : string) (job_id : option Z)
    (user partition clusters : option string) : outcome (list string) :=
  let sacct_command := sacct_line column job_id user partition clusters in
  let sacct_command := get_command sacct_command in
  shlex_split sacct_command.

(** The loop of [_get_sacct_entry] over [sacct_output[1:]]. *)
Fixpoint sacct_entries (entries : list string) (sacct_return : gmap string string)
  : outcome (gmap string string) :=
  match entries with
  | [] => Return sacct_return
  | entry :: rest =>
      match split PIPE entry with
      | [job_string; state; exitcode] =>
          if contains ".batch" job_string then sacct_entries rest sacct_return
          else sacct_entries rest (<["success" := exitcode]> (<["finished" := state]> sacct_return))
      | _ => Raise ValueError
      end
  end.

Definition _get_sacct_entry (column : string) : M state (option (gmap string string)) :=
  let! s := get in
  let! sacct_command :=
    lift (_get_sacct_command column (_job_id (self s)) None (partition (self s))
            (clusters (self s))) in
  let! out := in_env (check_output sacct_command) in
  let sacct_output := split NL (rstrip NL out) in
  if (1 <? length sacct_output)%nat then
    let! sacct_return := lift (sacct_entries (drop 1 sacct_output) ∅) in
    ret (Some sacct_return)
  else ret None.

Definition status_body : M state Status :=
  let! sacct_return := _get_sacct_entry "Job,State,ExitCode" in
  match sacct_return with
  | Some sacct_return =>
      let! job_state := lift (getitem sacct_return "finished") in
      if negb (in_run_states job_state) then
        let! exitcode := lift (getitem sacct_return "success") in
        update_self (set_exitcode exitcode) ;;
        ret FINISHED
      else ret RUNNING
  | None => ret RUNNING
  end.

(** [status()], with the ghost record of the call. *)
Definition status : M state Status :=
  fun s => let (r, s') := status_body s in
           (r, {| self := self s'; env := env s'; calls := calls s' ++ [r] |}).

Definition exitcode : M state (option string) :=
  let! s := get in
  (if _exitcode (self s) is None then status ;; ret tt else ret tt) ;;
  let! s := get in
  ret (_exitcode (self s)).

(** ** The batched listener *)

(** The three containers filled by the first loop of [listen]; the set
    [job_ids] is kept as the sequence of its [add] calls. *)
Record scan := {
  return_states : gmap Z string;
  return_exitcodes : gmap Z string;
  job_ids : list Z
}.

Definition scan0 : scan :=
  {| return_states := ∅; return_exitcodes := ∅; job_ids := [] |}.

Fixpoint scan_rows (rows : list string) (sc : scan) : outcome scan :=
  match rows with
  | [] => Return sc
  | res :: rest =>
      match split PIPE res with
      | [job_id; state; exitcode] =>
          if contains ".batch" job_id then scan_rows rest sc
          else if contains ".extern" job_id then scan_rows rest sc
          else
            obind (int job_id) (fun job_id =>
              scan_rows rest
                {| return_states := <[job_id := state]> (return_states sc);
                   return_exitcodes := <[job_id := exitcode]> (return_exitcodes sc);
                   job_ids := job_ids sc ++ [job_id] |})
      | _ => Raise ValueError
      end
  end.

(** [d[k] = v] on an [OrderedDict]: a present key keeps its place, a new key
    goes last. *)
Fixpoint od_set (k : Z) (v : job_result) (d : list (Z * job_result))
  : list (Z * job_result) :=
  match d with
  | [] => [(k, v)]
  | (k', v') :: d' =>
      if decide (k = k') then (k, v) :: d' else (k', v') :: od_set k v d'
  end.

(** The second loop of [listen], over the members of [job_ids] in iteration
    order. *)
Fixpoint build_results (ids : list Z) (sc : scan) (res_dict : list (Z * job_result))
  : outcome (list (Z * job_result)) :=
  match ids with
  | [] => Return res_dict
  | job_id :: rest =>
      obind (getitem (return_states sc) job_id) (fun state =>
        if in_run_states state then build_results rest sc res_dict
        else
          obind (getitem (return_exitcodes sc) job_id) (fun exitcode =>
            build_results rest sc
              (od_set job_id {| res_status := FINISHED; res_exitcode := exitcode |} res_dict)))
  end.

Context {order : SetOrder}.

(** One round of the [while True] loop of [listen]. *)
Definition listen_iteration (command : list string) (interval : Z) : M world unit :=
  let! out := check_output command in
  let result := split NL (rstrip NL out) in
  let! sc := lift (scan_rows (drop 1 result) scan0) in
  let! res_dict := lift (build_results (iter_set (job_ids sc)) sc []) in
  results_put res_dict ;;
  time_sleep interval.

(** The first [n] rounds of [listen]; the loop has no exit of its own, an
    exception ends it. *)
Fixpoint listen (n : nat) (command : list string) (interval : Z) : M world unit :=
  match n with
  | O => ret tt
  | S n' => listen_iteration command interval ;; listen n' command interval
  end.

Definition get_listen_func (partition clusters : option string)
  : outcome (nat -> Z -> M world unit) :=
  obind (_get_sacct_command "JobID,State,ExitCode" None user partition clusters)
    (fun command => Return (fun n interval => listen n command interval)).

End Methods.

(** ** Reading a query output row by row *)

(** The rows after the header line. *)
Definition data_rows (out : string) : list string :=
  drop 1 (split NL (rstrip NL out)).

(** The three columns of a row, when it has exactly three. *)
Definition row_fields (row : string) : option (string * string * string) :=
  match split PIPE row with
  | [job; state; code] => Some (job, state, code)
  | _ => None
  end.

Definition three_columns (row : string) : bool :=
  match row_fields row with
  | Some _ => true
  | None => false
  end.

(** The rows of a per-job query that are not [.batch] steps, as pairs of
    state and exit code. *)
Definition kept_rows (rows : list string) : list (string * string) :=
  omap (fun row =>
          match row_fields row with
          | Some (job, state, code) =>
              if contains ".batch" job then None else Some (state, code)
          | None => None
          end) rows.

Definition batch_row (row : string) : bool :=
  match row_fields row with
  | Some (job, _, _) => contains ".batch" job
  | None => false
  end.

(** A step row of the batched poll. *)
Definition step_id (job : string) : bool :=
  contains ".batch" job || contains ".extern" job.

(** A row of the batched poll is well formed when it has three columns and,
    unless it is a step row, an integer in the first. *)
Definition poll_row_ok (row : string) : bool :=
  match row_fields row with
  | Some (job, _, _) => step_id job || bool_decide (is_Some (py_int job))
  | None => false
  end.

(** The rows of a batched poll that survive the filter, in scan order, as
    triples of identifier, state and exit code. *)
Definition surviving (rows : list string) : list (Z * string * string) :=
  omap (fun row =>
          match row_fields row with
          | Some (job, state, code) =>
              if step_id job then None
              else (fun j => (j, state, code)) <$> py_int job
          | None => None
          end) rows.

(** The last row recorded for identifier [j]. *)
Definition last_row (rows : list (Z * string * string)) (j : Z)
  : option (Z * string * string) :=
  last (filter (fun r => r.1.1 = j) rows).

(** [j] has left the running set in this poll. *)
Definition finished_in (rows : list (Z * string * string)) (j : Z) : bool :=
  match last_row rows j with
  | Some (_, state, _) => negb (in_run_states state)
  | None => false
  end.

(** The members of a list in the order of their first occurrence. *)
Fixpoint first_seen (l : list Z) : list Z :=
  match l with
  | [] => []
  | x :: l' => x :: filter (fun y => y ≠ x) (first_seen l')
  end.

(** The order in which the finished identifiers are first discovered. *)
Definition discovery_order (rows : list (Z * string * string)) : list Z :=
  filter (fun j => finished_in rows j = true) (first_seen (rows.*1.*1)).

(** Members in increasing order, each once. *)
Fixpoint insert_asc (x : Z) (l : list Z) : list Z :=
  match l with
  | [] => [x]
  | y :: l' =>
      if decide (x < y) then x :: l
      else if decide (x = y) then l
      else y :: insert_asc x l'
  end.

Definition ascending (l : list Z) : list Z := foldr insert_asc [] l.

(** The submission output as the specification reads it: the fourth token
    of the first line, tokens being separated by runs of whitespace. *)
Definition is_str_space (c : ascii) : bool :=
  let n := nat_of_ascii c in
  ((9 <=? n) && (n <=? 13) || (28 <=? n) && (n <=? 31) || (n =? 32))%nat.

Fixpoint words_go (s : string) (cur : string) : list string :=
  match s with
  | EmptyString => match cur with EmptyString => [] | _ => [cur] end
  | String c s' =>
      if is_str_space c then
        match cur with
        | EmptyString => words_go s' EmptyString
        | _ => cur :: words_go s' EmptyString
        end
      else words_go s' (snoc cur c)
  end.

Definition words (s : string) : list string := words_go s EmptyString.

Definition first_line (s : string) : string :=
  match split NL s with
  | l :: _ => l
  | [] => EmptyString
  end.

Definition fourth_token_of_first_line (out : string) : option Z :=
  words (first_line out) !! 3%nat ≫= py_int.

(** Every character of [s] satisfies [p]. *)
Fixpoint all_chars (p : ascii -> bool) (s : string) : bool :=
  match s with
  | EmptyString => true
  | String c s' => p c && all_chars p s'
  end.

(** The number written by the decimal digits [d] after the number [acc]. *)
Fixpoint uint_value (d : Decimal.uint) (acc : Z) : Z :=
  match d with
  | Decimal.Nil => acc
  | Decimal.D0 d => uint_value d (10 * acc)
  | Decimal.D1 d => uint_value d (10 * acc + 1)
  | Decimal.D2 d => uint_value d (10 * acc + 2)
  | Decimal.D3 d => uint_value d (10 * acc + 3)
  | Decimal.D4 d => uint_value d (10 * acc + 4)
  | Decimal.D5 d => uint_value d (10 * acc + 5)
  | Decimal.D6 d => uint_value d (10 * acc + 6)
  | Decimal.D7 d => uint_value d (10 * acc + 7)
  | Decimal.D8 d => uint_value d (10 * acc + 8)
  | Decimal.D9 d => uint_value d (10 * acc + 9)
  end.

(** ** The submit command as a table of flags *)

(** The optional fields in the order of the command line, each with its
    flag; [true] marks a flag that is a word of its own, [false] one that
    is written in one word with its value. *)
Definition flag_fields (o : Slurm) : list (string * bool * option string) :=
  [("-J", true, name o); ("-o", true, log o); ("-p", true, partition o);
   ("-x", true, exclude o); ("-M", true, clusters o); ("--qos=", false, qos o);
   ("--mem=", false, mem o); ("--time=", false, time o); ("--export=", false, export o)].

(** The text and the words that one field contributes. *)
Definition flag_text (f : string * bool * option string) : string :=
  f.1.1 ++ (if f.1.2 then " " else EmptyString) ++ fmt f.2 ++ " ".

Definition flag_words (f : string * bool * option string) : list string :=
  if f.1.2 then [f.1.1; fmt f.2] else [f.1.1 ++ fmt f.2].

Definition concat_text (l : list string) : string := foldr String.append EmptyString l.

(** The run arguments as text: a string as it is, a sequence joined by
    spaces. *)
Definition args_text (a : option args) : string :=
  match a with
  | None => EmptyString
  | Some (ArgStr a) => a
  | Some (ArgSeq l) => join " " l
  end.

(** The command line with one flag for every field that [present] holds
    of. *)
Definition command_line {collab : Collaborators} (present : option string -> bool)
    (o : Slurm) : string :=
  "sbatch " ++ concat_text (map flag_text (filter (fun f => present f.2 = true) (flag_fields o)))
  ++ wrapper_get (run_script o) ++ " " ++ args_text (run_args o).

(** The words of the flags on the command line. *)
Definition command_words {collab : Collaborators} (o : Slurm) : list string :=
  ("sbatch" :: concat (map flag_words (filter (fun f => truthy f.2 = true) (flag_fields o)))
   ++ [wrapper_get (run_script o)])%list.

(** A field is set when it is not [None]. *)
Definition is_set (v : option string) : bool :=
  match v with
  | Some _ => true
  | None => false
  end.

(** Characters that the shell-like splitting takes literally, and words
    made of them. *)
Definition plain_char (c : ascii) : bool :=
  negb (shlex_ws c) && negb (shlex_quote c) && negb (Ascii.eqb c BACKSLASH).

Definition plain_word (w : string) : bool :=
  match w with
  | EmptyString => false
  | _ => all_chars plain_char w
  end.

(** ** Sequences of calls on one job *)

Inductive op := OpSubmit | OpCancel | OpStatus | OpExitcode.

#[global] Instance op_eq_dec : EqDecision op.
Proof. solve_decision. Defined.

(** The state after a call; a raised exception leaves the object as the
    method left it, and the caller can go on. *)
Definition run_op {collab : Collaborators} (o : op) (s : state) : state :=
  match o with
  | OpSubmit => (submit s).2
  | OpCancel => (cancel s).2
  | OpStatus => (status s).2
  | OpExitcode => (exitcode s).2
  end.

Definition run_ops {collab : Collaborators} (ops : list op) (s : state) : state :=
  fold_left (fun s o => run_op o s) ops s.

(** A freshly constructed job in a world [w]. *)
Definition fresh (o : Slurm) (w : world) : state :=
  {| self := o; env := w; calls := [] |}.

(** The state after one more child process and one more recorded call. *)
Definition queried (argv : list string) (r : outcome Status) (s : state) : state :=
  {| self := self s;
     env := {| proc_out := proc_out (env s); spawned := spawned (env s) ++ [argv];
               shell := shell (env s); queue := queue (env s); slept := slept (env s) |};
     calls := calls s ++ [r] |}.

(** The state after one more child process. *)
Definition spawn (argv : list string) (s : state) : state :=
  {| self := self s;
     env := {| proc_out := proc_out (env s); spawned := (spawned (env s) ++ [argv])%list;
               shell := shell (env s); queue := queue (env s); slept := slept (env s) |};
     calls := calls s |}.

Definition with_job_id (j : Z) (s : state) : state :=
  {| self := set_job_id j (self s); env := env s; calls := calls s |}.

Definition with_exitcode (e : string) (s : state) : state :=
  {| self := set_exitcode e (self s); env := env s; calls := calls s |}.

(** The exit code is stored exactly when some call of [status] returned
    [FINISHED]. *)
Definition exitcode_inv (s : state) : Prop :=
  is_Some (_exitcode (self s)) <-> Return FINISHED ∈ calls s.

(** ** Concrete collaborators *)

(** No command wrapper is configured and the run script is passed as it
    is. *)
Definition plain : Collaborators :=
  {| get_command := fun command => command; wrapper_get := fmt; user := Some "alice" |}.

Definition quiet (out : string) : world :=
  {| proc_out := fun _ => Prints out; spawned := []; shell := []; queue := []; slept := [] |}.

Definition lines (l : list string) : string :=
  join (String NL EmptyString) l ++ String NL EmptyString.

Definition job0 : Slurm :=
  __init__ None None (Some "run.sh") None None None None None None None None.

(** A world in which the first query prints [out1] and every later one
    [out2]. *)
Definition two_polls (out1 out2 : string) : world :=
  {| proc_out := fun n => match n with O => Prints out1 | _ => Prints out2 end;
     spawned := []; shell := []; queue := []; slept := [] |}.

Definition job1 : Slurm :=
  __init__ (Some "fit") (Some "fit.log") (Some "run.sh") (Some (ArgSeq ["-n"; "10"]))
    (Some "long") None None (Some "high") None (Some "01:00:00") None.

(** A job whose name is set to the empty string. *)
Definition job_unnamed : Slurm :=
  __init__ (Some EmptyString) None (Some "run.sh") None None None None None None None None.

(** One surviving row recorded in the three containers. *)
Definition add_row (sc : scan) (r : Z * string * string) : scan :=
  {| return_states := <[r.1.1 := r.1.2]> (return_states sc);
     return_exitcodes := <[r.1.1 := r.2]> (return_exitcodes sc);
     job_ids := (job_ids sc ++ [r.1.1])%list |}.

(** The exit code of the last row recorded for [j]. *)
Definition code_of (rows : list (Z * string * string)) (j : Z) : string :=
  match last_row rows j with
  | Some (_, _, code) => code
  | None => EmptyString
  end.

(** The mapping that one round publishes for the surviving rows [rows]. *)
Definition published {order : SetOrder} (rows : list (Z * string * string))
  : list (Z * job_result) :=
  map (fun j => (j, {| res_status := FINISHED; res_exitcode := code_of rows j |}))
    (filter (fun j => finished_in rows j = true) (iter_set (rows.*1.*1))).

(** The world after one round of the listener that published [d]. *)
Definition after_round (command : list string) (interval : Z)
    (d : list (Z * job_result)) (w : world) : world :=
  {| proc_out := proc_out w; spawned := (spawned w ++ [command])%list; shell := shell w;
     queue := (queue w ++ [d])%list; slept := (slept w ++ [interval])%list |}.

(** ** Two iteration orders for sets *)

(** A set that iterates in insertion order. *)
Definition insertion_order : SetOrder.
Proof.
  refine {| iter_set := first_seen |}.
  - intros l. induction l as [|x l IH]; simpl; [constructor|].
    constructor; [|by apply NoDup_filter].
    rewrite list_elem_of_filter. by intros [? _].
  - intros l x. induction l as [|y l IH]; simpl; [done|].
    rewrite !elem_of_cons, list_elem_of_filter, IH.
    destruct (decide (x = y)) as [->|Hne]; [by split; left|].
    split; [intros [?|[_ ?]]; [by left|by right]|intros [?|?]; [by left|by right]].
Defined.

(** A set that iterates in increasing order, which is what a hash table
    indexed by the low bits of small identifiers does. *)
Definition ascending_order : SetOrder.
Proof.
  assert (forall x l z, z ∈ insert_asc x l <-> z = x ∨ z ∈ l) as Helem.
  { intros x l z. induction l as [|y l IH]; simpl.
    - rewrite list_elem_of_singleton. split; [by left|]. by intros [?|?%elem_of_nil].
    - destruct (decide (x < y)); [by rewrite elem_of_cons|].
      destruct (decide (x = y)) as [->|Hne].
      + rewrite elem_of_cons. split; [by right|]. intros [->|?]; [by left|done].
      + rewrite !elem_of_cons, IH.
        split; [intros [?|[?|?]]|intros [?|[?|?]]]; auto. }
  assert (forall x l, StronglySorted Z.lt l -> StronglySorted Z.lt (insert_asc x l)) as Hsorted.
  { intros x l. induction 1 as [|y l Hl IH Hall]; simpl; [by repeat constructor|].
    destruct (decide (x < y)).
    - constructor; [by constructor|]. constructor; [done|].
      eapply Forall_impl; [exact Hall|]. simpl. lia.
    - destruct (decide (x = y)); [by constructor|].
      constructor; [done|]. apply Forall_forall. intros z [->|Hz]%Helem; [lia|].
      by eapply Forall_forall in Hall. }
  assert (forall l, StronglySorted Z.lt (ascending l)) as Hasc.
  { induction l as [|x l IH]; simpl; [constructor|]. by apply Hsorted. }
  refine {| iter_set := ascending |}.
  - intros l. specialize (Hasc l). induction Hasc as [|y l' Hl IH Hall]; constructor; [|done].
    intros Hy. eapply Forall_forall in Hall; [|exact Hy]. lia.
  - intros l x. induction l as [|y l IH]; simpl; [done|].
    by rewrite Helem, elem_of_cons, IH.
Defined.

(** ** The query command as a list of words *)

(** The words that [_get_sacct_command] puts on the command line: one
    option for each argument that holds a value, then the output format. *)
Definition sacct_words (column : string) (job_id : option Z)
    (user partition clusters : option string) : list string :=
  (["sacct"]
   ++ (if truthy partition then ["-r"; fmt partition] else [])
   ++ (if truthy clusters then ["-M"; fmt clusters] else [])
   ++ (if truthy_int job_id then ["-j"; fmt_int job_id] else [])
   ++ (if truthy user then ["-u"; fmt user] else [])
   ++ ["-P"; "-o"; column])%list.

(** An optional value is absent, empty, or a plain word. *)
Definition plain_opt (v : option string) : bool :=
  implb (truthy v) (plain_word (fmt v)).

(** The attributes that describe the job, which no method assigns. *)
Definition same_spec (a b : Slurm) : Prop :=
  name a = name b ∧ log a = log b ∧ run_script a = run_script b ∧
  run_args a = run_args b ∧ partition a = partition b ∧ clusters a = clusters b ∧
  qos a = qos b ∧ exclude a = exclude b ∧ mem a = mem b ∧ time a = time b ∧
  export a = export b.

(** The world after a child process was started and nothing else
    happened. *)
Definition spawned_one (argv : list string) (w : world) : world :=
  {| proc_out := proc_out w; spawned := (spawned w ++ [argv])%list; shell := shell w;
     queue := queue w; slept := slept w |}.

(** What the output of the per-job query says: the status, and the exit
    code to store if there is one. *)
Definition verdict (out : string) : outcome (Status * option string) :=
  if bool_decide (data_rows out = []) then Return (RUNNING, None)
  else
    obind (sacct_entries (data_rows out) ∅) (fun sacct_return =>
      obind (getitem sacct_return "finished") (fun job_state =>
        if in_run_states job_state then Return (RUNNING, None)
        else
          obind (getitem sacct_return "success") (fun code =>
            Return (FINISHED, Some code)))).

(** The state that a call of [status] leaves when the query printed an
    output with verdict [v]. *)
Definition after_status (argv : list string) (v : outcome (Status * option string))
    (s : state) : outcome Status * state :=
  match v with
  | Return (st, None) => (Return st, queried argv (Return st) s)
  | Return (st, Some code) => (Return st, with_exitcode code (queried argv (Return st) s))
  | Raise e => (Raise e, queried argv (Raise e) s)
  end.

(** ** Facts about the string primitives *)

Example split_pipe : split PIPE "11|FAILED|1:0" = ["11"; "FAILED"; "1:0"].
Proof. reflexivity. Qed.

Example split_empty : split NL EmptyString = [EmptyString].
Proof. reflexivity. Qed.

Example rstrip_newlines :
  rstrip NL (String "a" (String NL (String "b" (String NL (String NL EmptyString)))))
  = String "a" (String NL (String "b" EmptyString)).
Proof. reflexivity. Qed.

Example contains_batch : contains ".batch" "11.batch" = true /\ contains ".batch" "11" = false.
Proof. split; reflexivity. Qed.

Example py_int_examples :
  py_int "4242" = Some 4242 /\ py_int " -1_0 " = Some (-10) /\ py_int "007" = Some 7 /\
  py_int "job" = None /\ py_int "1__0" = None /\ py_int "12.0" = None /\ py_int EmptyString = None.
Proof. repeat split; reflexivity. Qed.

Example shlex_split_quotes :
  shlex_split "sacct -o 'a b'  c\ d" = Return ["sacct"; "-o"; "a b"; "c d"] /\
  shlex_split "sbatch 'run" = Raise ValueError.
Proof. split; reflexivity. Qed.

(** The control characters 28 to 31 are no whitespace for [int]. *)
Example py_int_control_characters :
  py_int (String "1" (String "2" (String "031" EmptyString))) = None /\
  py_int (String "028" (String "7" EmptyString)) = None /\
  py_int (String "011" (String "7" (String "012" EmptyString))) = Some 7.
Proof. repeat split; reflexivity. Qed.

Example str_of_int_examples :
  str_of_int 4242 = "4242" /\ str_of_int 0 = "0" /\ str_of_int (-7) = "-7".
Proof. repeat split; reflexivity. Qed.


Lemma split_not_nil sep s : split sep s ≠ [].
Proof.
  destruct s as [|c s]; simpl; [done|].
  destruct (Ascii.eqb c sep); [done|].
  by destruct (split sep s).
Qed.

Lemma data_rows_length out :
  (1 <? length (split NL (rstrip NL out)))%nat = negb (bool_decide (data_rows out = [])).
Proof.
  unfold data_rows.
  pose proof (split_not_nil NL (rstrip NL out)) as Hne.
  destruct (split NL (rstrip NL out)) as [|h [|r rows]]; by simpl.
Qed.

(** ** The per-job query *)

Lemma kept_rows_cons row rows :
  kept_rows (row :: rows) =
    match row_fields row with
    | Some (job, state, code) =>
        if contains ".batch" job then kept_rows rows else (state, code) :: kept_rows rows
    | None => kept_rows rows
    end.
Proof.
  unfold kept_rows; simpl.
  destruct (row_fields row) as [[[job state] code]|]; [|done].
  by destruct (contains ".batch" job).
Qed.

Lemma sacct_entries_cons row rows m :
  sacct_entries (row :: rows) m =
    match row_fields row with
    | Some (job, state, code) =>
        if contains ".batch" job then sacct_entries rows m
        else sacct_entries rows (<["success" := code]> (<["finished" := state]> m))
    | None => Raise ValueError
    end.
Proof.
  unfold row_fields; simpl.
  by destruct (split PIPE row) as [|job [|state [|code [|]]]].
Qed.

Lemma sacct_entries_spec rows m :
  forallb three_columns rows = true ->
  sacct_entries rows m =
    Return (match last (kept_rows rows) with
            | Some (state, code) => <["success" := code]> (<["finished" := state]> m)
            | None => m
            end).
Proof.
  revert m. induction rows as [|row rows IH]; intros m Hok; [done|].
  simpl in Hok. apply andb_prop in Hok as [Hrow Hrows].
  rewrite sacct_entries_cons, kept_rows_cons.
  unfold three_columns in Hrow.
  destruct (row_fields row) as [[[job state] code]|]; [|done].
  destruct (contains ".batch" job); [by apply IH|].
  rewrite IH by done.
  destruct (kept_rows rows) as [|k ks] eqn:Hk; [done|].
  change (last ((state, code) :: k :: ks)) with (last (k :: ks)).
  destruct (last (k :: ks)) as [[st cd]|] eqn:Hl; [|by apply last_None in Hl].
  f_equal. apply map_eq. intros key.
  rewrite !lookup_insert. by repeat case_decide.
Qed.

Lemma sacct_entries_bad rows m :
  forallb three_columns rows = false -> sacct_entries rows m = Raise ValueError.
Proof.
  revert m. induction rows as [|row rows IH]; intros m Hbad; [done|].
  simpl in Hbad. rewrite sacct_entries_cons. unfold three_columns in Hbad.
  destruct (row_fields row) as [[[job state] code]|]; [|done].
  simpl in Hbad. destruct (contains ".batch" job); by apply IH.
Qed.

Lemma kept_rows_nil rows :
  forallb three_columns rows = true ->
  kept_rows rows = [] <-> forallb batch_row rows = true.
Proof.
  induction rows as [|row rows IH]; intros Hok; [done|].
  simpl in Hok. apply andb_prop in Hok as [Hrow Hrows].
  unfold kept_rows, three_columns, batch_row in *. simpl.
  destruct (row_fields row) as [[[job state] code]|]; [|done].
  destruct (contains ".batch" job); simpl; [by apply IH|].
  split; done.
Qed.

Lemma batch_row_three_columns rows :
  forallb batch_row rows = true -> forallb three_columns rows = true.
Proof.
  induction rows as [|row rows IH]; [done|]. simpl.
  intros [Hrow Hrows]%andb_prop. rewrite IH by done.
  unfold batch_row, three_columns in *. by destruct (row_fields row).
Qed.

Section StatusQuery.
Context {collab : Collaborators}.
Variables (s : state) (argv : list string) (out : string).
Hypothesis Hcmd :
  _get_sacct_command "Job,State,ExitCode" (_job_id (self s)) None
    (partition (self s)) (clusters (self s)) = Return argv.
Hypothesis Hout : proc_out (env s) (length (spawned (env s))) = Prints out.

(** The query of [status] up to the parsed record. *)
Lemma status_body_unfold :
  status_body s =
    let s1 := {| self := self s;
                 env := {| proc_out := proc_out (env s);
                           spawned := spawned (env s) ++ [argv];
                           shell := shell (env s); queue := queue (env s);
                           slept := slept (env s) |};
                 calls := calls s |} in
    if bool_decide (data_rows out = []) then (Return RUNNING, s1)
    else match sacct_entries (data_rows out) ∅ with
         | Raise e => (Raise e, s1)
         | Return sacct_return =>
             match getitem sacct_return "finished" with
             | Raise e => (Raise e, s1)
             | Return job_state =>
                 if in_run_states job_state then (Return RUNNING, s1)
                 else match getitem sacct_return "success" with
                      | Raise e => (Raise e, s1)
                      | Return code => (Return FINISHED, with_exitcode code s1)
                      end
             end
         end.
Proof.
  unfold status_body, _get_sacct_entry, bind, get, lift, in_env, check_output.
  rewrite Hcmd. simpl. rewrite Hout, data_rows_length.
  case_bool_decide; simpl; [done|].
  fold (data_rows out).
  destruct (sacct_entries (data_rows out) ∅) as [m|e]; simpl; [|done].
  unfold ret. destruct (getitem m "finished") as [st|e]; simpl; [|done].
  destruct (in_run_states st); simpl; [done|].
  by destruct (getitem m "success").
Qed.

End StatusQuery.

Lemma in_run_states_alt state :
  in_run_states state = bool_decide (state = "PENDING" ∨ state = "RUNNING").
Proof.
  unfold in_run_states, _run_states. apply bool_decide_ext. set_solver.
Qed.

(** [status] when the query prints at least one row that is kept. *)
Lemma status_last_kept {collab : Collaborators}
    (s : state) (argv : list string) (out state code : string) :
  _get_sacct_command "Job,State,ExitCode" (_job_id (self s)) None
    (partition (self s)) (clusters (self s)) = Return argv ->
  proc_out (env s) (length (spawned (env s))) = Prints out ->
  forallb three_columns (data_rows out) = true ->
  last (kept_rows (data_rows out)) = Some (state, code) ->
  status s =
    if bool_decide (state = "PENDING" ∨ state = "RUNNING")
    then (Return RUNNING, queried argv (Return RUNNING) s)
    else (Return FINISHED, with_exitcode code (queried argv (Return FINISHED) s)).
Proof.
  intros Hcmd Hout Hok Hlast. unfold status.
  rewrite (status_body_unfold s argv out Hcmd Hout). cbv zeta.
  case_bool_decide as Hrows; [by rewrite Hrows in Hlast|].
  rewrite sacct_entries_spec, Hlast by done. unfold getitem.
  rewrite lookup_insert_ne, lookup_insert_eq by done.
  rewrite in_run_states_alt. case_bool_decide; [done|].
  by rewrite lookup_insert_eq.
Qed.

(** C2: when the per-job query prints rows of three columns of which at
    least one is not a [.batch] row, [status] goes by the last such row: it
    returns [RUNNING] when that row's state is [PENDING] or [RUNNING], and
    otherwise returns [FINISHED] and stores that row's exit code on the
    object. Besides the one child process and the stored exit code nothing
    changes. *)
Theorem status_of_last_kept_row {collab : Collaborators}
    (s : state) (argv : list string) (out state code : string) :
  _get_sacct_command "Job,State,ExitCode" (_job_id (self s)) None
    (partition (self s)) (clusters (self s)) = Return argv ->
  proc_out (env s) (length (spawned (env s))) = Prints out ->
  forallb three_columns (data_rows out) = true ->
  last (kept_rows (data_rows out)) = Some (state, code) ->
  (state = "PENDING" ∨ state = "RUNNING" ->
   status s = (Return RUNNING, queried argv (Return RUNNING) s)) ∧
  (¬ (state = "PENDING" ∨ state = "RUNNING") ->
   status s = (Return FINISHED, with_exitcode code (queried argv (Return FINISHED) s)) ∧
   _exitcode (self (status s).2) = Some code).
Proof.
  intros Hcmd Hout Hok Hlast.
  rewrite (status_last_kept s argv out state code Hcmd Hout Hok Hlast).
  split; intros Hrun.
  - by rewrite bool_decide_eq_true_2.
  - by rewrite bool_decide_eq_false_2.
Qed.

Lemma status_of_last_kept_row_witness :
  @status plain (fresh job0 (quiet (lines ["JobID|State|ExitCode"; "4242|COMPLETED|0:0"])))
  = (Return FINISHED,
     with_exitcode "0:0"
       (queried ["sacct"; "-P"; "-o"; "Job,State,ExitCode"] (Return FINISHED)
          (fresh job0 (quiet (lines ["JobID|State|ExitCode"; "4242|COMPLETED|0:0"]))))) ∧
  _exitcode
    (self (@status plain
             (fresh job0 (quiet (lines ["JobID|State|ExitCode"; "4242|COMPLETED|0:0"])))).2)
  = Some "0:0".
Proof.
  refine (proj2 (@status_of_last_kept_row plain
                   (fresh job0 (quiet (lines ["JobID|State|ExitCode"; "4242|COMPLETED|0:0"])))
                   ["sacct"; "-P"; "-o"; "Job,State,ExitCode"]
                   (lines ["JobID|State|ExitCode"; "4242|COMPLETED|0:0"]) "COMPLETED" "0:0"
                   eq_refl eq_refl eq_refl eq_refl) _).
  intros [H|H]; discriminate H.
Defined.

(** C7: when the per-job query prints no data row (nothing, or the header
    only), and also when the last row that is not a [.batch] row has state
    [PENDING] or [RUNNING], [status] returns [RUNNING] and the stored exit
    code is what it was. *)
Theorem status_running_keeps_exitcode {collab : Collaborators}
    (s : state) (argv : list string) (out : string) :
  _get_sacct_command "Job,State,ExitCode" (_job_id (self s)) None
    (partition (self s)) (clusters (self s)) = Return argv ->
  proc_out (env s) (length (spawned (env s))) = Prints out ->
  data_rows out = [] ∨
  (forallb three_columns (data_rows out) = true ∧
   ∃ state code, last (kept_rows (data_rows out)) = Some (state, code) ∧
                 (state = "PENDING" ∨ state = "RUNNING")) ->
  status s = (Return RUNNING, queried argv (Return RUNNING) s) ∧
  _exitcode (self (status s).2) = _exitcode (self s).
Proof.
  intros Hcmd Hout Hrows.
  assert (status s = (Return RUNNING, queried argv (Return RUNNING) s)) as ->; [|done].
  destruct Hrows as [Hnil | (Hok & state & code & Hlast & Hrun)].
  - unfold status. rewrite (status_body_unfold s argv out Hcmd Hout). cbv zeta.
    by rewrite bool_decide_eq_true_2.
  - rewrite (status_last_kept s argv out state code) by done.
    by rewrite bool_decide_eq_true_2.
Qed.

Lemma status_running_keeps_exitcode_witness :
  @status plain (fresh job0 (quiet (lines ["JobID|State|ExitCode"])))
  = (Return RUNNING,
     queried ["sacct"; "-P"; "-o"; "Job,State,ExitCode"] (Return RUNNING)
       (fresh job0 (quiet (lines ["JobID|State|ExitCode"])))) ∧
  _exitcode (self (@status plain (fresh job0 (quiet (lines ["JobID|State|ExitCode"])))).2)
  = None.
Proof.
  exact (@status_running_keeps_exitcode plain
           (fresh job0 (quiet (lines ["JobID|State|ExitCode"])))
           ["sacct"; "-P"; "-o"; "Job,State,ExitCode"]
           (lines ["JobID|State|ExitCode"]) eq_refl eq_refl (or_introl eq_refl)).
Defined.

(** C10: once the query has printed its output, [status] ends in a
    [KeyError] exactly when there is at least one data row and every data
    row is a three-column row whose identifier contains [.batch]: the parsed
    record is then empty and the lookup of the state fails.  The object is
    left as it was. *)
Theorem status_key_error {collab : Collaborators}
    (s : state) (argv : list string) (out : string) :
  _get_sacct_command "Job,State,ExitCode" (_job_id (self s)) None
    (partition (self s)) (clusters (self s)) = Return argv ->
  proc_out (env s) (length (spawned (env s))) = Prints out ->
  ((status s).1 = Raise KeyError <->
   data_rows out ≠ [] ∧ forallb batch_row (data_rows out) = true) ∧
  ((status s).1 = Raise KeyError -> self (status s).2 = self s).
Proof.
  intros Hcmd Hout. unfold status.
  rewrite (status_body_unfold s argv out Hcmd Hout). cbv zeta.
  case_bool_decide as Hrows; simpl; [by split; [split; [|intros []]|]|].
  destruct (forallb three_columns (data_rows out)) eqn:Hok.
  - rewrite sacct_entries_spec by done.
    destruct (last (kept_rows (data_rows out))) as [[state code]|] eqn:Hlast.
    + unfold getitem. rewrite lookup_insert_ne, lookup_insert_eq by done.
      assert (forallb batch_row (data_rows out) ≠ true) as Hnb.
      { rewrite <-kept_rows_nil by done. intros Hnil. by rewrite Hnil in Hlast. }
      destruct (in_run_states state); simpl; [by split; [split; [|intros []]|]|].
      rewrite lookup_insert_eq. simpl. by split; [split; [|intros []]|].
    + apply last_None in Hlast. apply kept_rows_nil in Hlast; [|done].
      unfold getitem. rewrite lookup_empty. simpl. by split.
  - rewrite sacct_entries_bad by done. simpl.
    split; [|done]. split; [done|]. intros [_ Hb].
    apply batch_row_three_columns in Hb. congruence.
Qed.

Lemma status_key_error_witness :
  ((@status plain (fresh job0 (quiet (lines ["JobID|State|ExitCode"; "4242.batch|RUNNING|"])))).1
   = Raise KeyError <->
   data_rows (lines ["JobID|State|ExitCode"; "4242.batch|RUNNING|"]) ≠ [] ∧
   forallb batch_row (data_rows (lines ["JobID|State|ExitCode"; "4242.batch|RUNNING|"])) = true) ∧
  ((@status plain (fresh job0 (quiet (lines ["JobID|State|ExitCode"; "4242.batch|RUNNING|"])))).1
   = Raise KeyError ->
   self (@status plain
           (fresh job0 (quiet (lines ["JobID|State|ExitCode"; "4242.batch|RUNNING|"])))).2
   = job0).
Proof.
  exact (@status_key_error plain
           (fresh job0 (quiet (lines ["JobID|State|ExitCode"; "4242.batch|RUNNING|"])))
           ["sacct"; "-P"; "-o"; "Job,State,ExitCode"]
           (lines ["JobID|State|ExitCode"; "4242.batch|RUNNING|"]) eq_refl eq_refl).
Defined.

(** ** [exitcode] and the history of a job *)

(** What a call of [status] may do to the stored exit code. *)
Lemma status_body_effect {collab : Collaborators} (s : state) :
  calls (status_body s).2 = calls s ∧
  (((status_body s).1 = Return FINISHED ∧ is_Some (_exitcode (self (status_body s).2))) ∨
   ((status_body s).1 ≠ Return FINISHED ∧
    _exitcode (self (status_body s).2) = _exitcode (self s))).
Proof.
  unfold status_body, _get_sacct_entry, bind, get, lift, in_env, check_output, ret,
    update_self, modify.
  destruct (_get_sacct_command _ _ _ _ _) as [argv|e]; simpl; [|by split; [|right]].
  destruct (proc_out _ _) as [out| | |]; simpl; [|by split; [|right]..].
  destruct (1 <? _)%nat; simpl; [|by split; [|right]].
  destruct (sacct_entries _ _) as [m|e]; simpl; [|by split; [|right]].
  destruct (getitem m "finished") as [st|e]; simpl; [|by split; [|right]].
  destruct (in_run_states st); simpl; [by split; [|right]|].
  destruct (getitem m "success") as [code|e]; simpl; [|by split; [|right]].
  split; [done|]. left. by split.
Qed.

Lemma status_effect {collab : Collaborators} (s : state) :
  calls (status s).2 = (calls s ++ [(status s).1])%list ∧
  (((status s).1 = Return FINISHED ∧ is_Some (_exitcode (self (status s).2))) ∨
   ((status s).1 ≠ Return FINISHED ∧ _exitcode (self (status s).2) = _exitcode (self s))).
Proof.
  destruct (status_body_effect s) as [Hcalls Hcode]. unfold status.
  destruct (status_body s) as [r s']; simpl in *. by rewrite Hcalls.
Qed.

Lemma submit_frame {collab : Collaborators} (s : state) :
  calls (submit s).2 = calls s ∧ _exitcode (self (submit s).2) = _exitcode (self s).
Proof.
  unfold submit, bind, get, lift, in_env, check_output, ret, update_self, modify.
  destruct (_get_submit_command _) as [argv|e]; simpl; [|done].
  destruct (proc_out _ _) as [out| | |]; simpl; [|done..].
  destruct (index _ _) as [field|e]; simpl; [|done].
  by destruct (int _) as [j|e].
Qed.

Lemma cancel_frame {collab : Collaborators} (s : state) :
  calls (cancel s).2 = calls s ∧ self (cancel s).2 = self s.
Proof. done. Qed.

Lemma exitcode_unfold {collab : Collaborators} (s : state) :
  exitcode s =
    match _exitcode (self s) with
    | Some code => (Return (Some code), s)
    | None => (omap_outcome (fun _ => _exitcode (self (status s).2)) (status s).1, (status s).2)
    end.
Proof.
  unfold exitcode, bind, get, ret.
  destruct (_exitcode (self s)) as [code|] eqn:Hcode; [by rewrite Hcode|].
  by destruct (status s) as [[r|e] s'].
Qed.

(** C6: with an exit code stored, [exitcode] returns it and changes nothing,
    so that no process is started and [status] is not called; with none
    stored it calls [status] exactly once, ends in the state that this call
    leaves, and returns the exit code stored there (still none when the call
    did not see the job finished); an exception of [status] is passed on. *)
Theorem exitcode_calls_status_once {collab : Collaborators} (s : state) :
  match _exitcode (self s) with
  | Some code => exitcode s = (Return (Some code), s)
  | None =>
      exitcode s =
        (omap_outcome (fun _ => _exitcode (self (status s).2)) (status s).1, (status s).2) ∧
      calls (exitcode s).2 = (calls s ++ [(status s).1])%list
  end.
Proof.
  rewrite exitcode_unfold.
  destruct (_exitcode (self s)) as [code|] eqn:Hcode; [done|].
  split; [done|]. apply status_effect.
Qed.

(** Each call keeps the invariant. *)
Lemma run_op_inv {collab : Collaborators} (o : op) (s : state) :
  exitcode_inv s -> exitcode_inv (run_op o s).
Proof.
  unfold exitcode_inv. intros Hinv.
  assert (exitcode_inv (status s).2) as Hstatus.
  { unfold exitcode_inv.
    destruct (status_effect s) as [Hcalls [[Hfin Hset]|[Hnot Hsame]]];
      rewrite Hcalls, elem_of_app, list_elem_of_singleton.
    - split; [by right|done].
    - rewrite Hsame, Hinv. split; [by left|]. by intros [?|?]. }
  destruct o; simpl.
  - destruct (submit_frame s) as [-> ->]. done.
  - exact Hinv.
  - done.
  - rewrite exitcode_unfold.
    destruct (_exitcode (self s)) as [code|] eqn:Hcode; simpl; [|done].
    by rewrite Hcode.
Qed.

(** C9: on a job that starts as [__init__] leaves it, after any sequence of
    calls of [submit], [cancel], [status] and [exitcode], whether they
    return or raise, an exit code is stored if and only if some call of
    [status] (made directly or by [exitcode]) has returned [FINISHED]. *)
Theorem exitcode_set_iff_finished_seen {collab : Collaborators}
    (name log run_script : option string) (run_args : option args)
    (partition exclude clusters qos mem time export : option string)
    (w : world) (ops : list op) :
  exitcode_inv
    (run_ops ops
       (fresh (__init__ name log run_script run_args partition exclude clusters qos mem
                 time export) w)).
Proof.
  unfold run_ops.
  set (s0 := fresh _ w).
  assert (exitcode_inv s0) as Hinit.
  { unfold exitcode_inv; simpl. split; [by intros [? ?]|]. by intros ?%elem_of_nil. }
  clearbody s0. revert s0 Hinit.
  induction ops as [|o ops IH]; intros s0 Hinit; [done|].
  simpl. apply IH. by apply run_op_inv.
Qed.

(** ** The batched listener *)

Lemma surviving_cons row rows :
  surviving (row :: rows) =
    match row_fields row with
    | Some (job, state, code) =>
        if step_id job then surviving rows
        else match py_int job with
             | Some j => (j, state, code) :: surviving rows
             | None => surviving rows
             end
    | None => surviving rows
    end.
Proof.
  unfold surviving; simpl.
  destruct (row_fields row) as [[[job state] code]|]; [|done].
  destruct (step_id job); [done|]. by destruct (py_int job).
Qed.

Lemma scan_rows_cons row rows sc :
  scan_rows (row :: rows) sc =
    match row_fields row with
    | Some (job, state, code) =>
        if step_id job then scan_rows rows sc
        else match py_int job with
             | Some j => scan_rows rows (add_row sc (j, state, code))
             | None => Raise ValueError
             end
    | None => Raise ValueError
    end.
Proof.
  unfold row_fields, step_id, int; simpl.
  destruct (split PIPE row) as [|job [|state [|code [|]]]]; try done.
  destruct (contains ".batch" job); [done|].
  destruct (contains ".extern" job); [done|]. simpl.
  unfold int. by destruct (py_int job).
Qed.

(** On well-formed rows the first loop records the surviving rows one after
    the other. *)
Lemma scan_rows_spec rows sc :
  forallb poll_row_ok rows = true ->
  scan_rows rows sc = Return (fold_left add_row (surviving rows) sc).
Proof.
  revert sc. induction rows as [|row rows IH]; intros sc Hok; [done|].
  simpl in Hok. apply andb_prop in Hok as [Hrow Hrows].
  rewrite scan_rows_cons, surviving_cons. unfold poll_row_ok in Hrow.
  destruct (row_fields row) as [[[job state] code]|]; [|done].
  destruct (step_id job); [by apply IH|]. simpl in Hrow.
  apply bool_decide_eq_true_1 in Hrow as [j Hj]. rewrite Hj. by apply IH.
Qed.

Lemma scan_rows_bad rows sc :
  forallb poll_row_ok rows = false -> scan_rows rows sc = Raise ValueError.
Proof.
  revert sc. induction rows as [|row rows IH]; intros sc Hbad; [done|].
  simpl in Hbad. rewrite scan_rows_cons. unfold poll_row_ok in Hbad.
  destruct (row_fields row) as [[[job state] code]|]; [|done].
  destruct (step_id job); [by apply IH|]. simpl in Hbad.
  destruct (py_int job) as [j|]; [|done].
  rewrite bool_decide_eq_true_2 in Hbad by done. by apply IH.
Qed.

Lemma last_row_cons r rows j :
  last_row (r :: rows) j =
    match last_row rows j with
    | Some r' => Some r'
    | None => if decide (r.1.1 = j) then Some r else None
    end.
Proof.
  unfold last_row. rewrite filter_cons.
  case_decide; [by rewrite last_cons|].
  by destruct (last _).
Qed.

Lemma fold_add_row_ids rows sc :
  job_ids (fold_left add_row rows sc) = (job_ids sc ++ rows.*1.*1)%list.
Proof.
  revert sc. induction rows as [|r rows IH]; intros sc; simpl.
  - by rewrite app_nil_r.
  - rewrite IH. simpl. by rewrite <-app_assoc.
Qed.

Lemma fold_add_row_states rows sc j :
  return_states (fold_left add_row rows sc) !! j =
    match last_row rows j with
    | Some (_, state, _) => Some state
    | None => return_states sc !! j
    end.
Proof.
  revert sc. induction rows as [|r rows IH]; intros sc; [done|].
  simpl. rewrite IH, last_row_cons.
  destruct (last_row rows j) as [[[j' st] cd]|]; [done|].
  simpl. rewrite lookup_insert. destruct r as [[j' st] cd]; simpl.
  by case_decide.
Qed.

Lemma fold_add_row_exitcodes rows sc j :
  return_exitcodes (fold_left add_row rows sc) !! j =
    match last_row rows j with
    | Some (_, _, code) => Some code
    | None => return_exitcodes sc !! j
    end.
Proof.
  revert sc. induction rows as [|r rows IH]; intros sc; [done|].
  simpl. rewrite IH, last_row_cons.
  destruct (last_row rows j) as [[[j' st] cd]|]; [done|].
  simpl. rewrite lookup_insert. destruct r as [[j' st] cd]; simpl.
  by case_decide.
Qed.

Lemma last_row_is_Some rows j : j ∈ rows.*1.*1 -> is_Some (last_row rows j).
Proof.
  intros Hj. unfold last_row. apply last_is_Some.
  apply list_elem_of_fmap in Hj as (p & -> & Hp).
  apply list_elem_of_fmap in Hp as (r & -> & Hr).
  intros Hnil. assert (r ∈ filter (λ r0, r0.1.1 = r.1.1) rows) as Hin.
  { by apply list_elem_of_filter. }
  rewrite Hnil in Hin. by apply elem_of_nil in Hin.
Qed.


Lemma od_set_fresh k v d : k ∉ d.*1 -> od_set k v d = (d ++ [(k, v)])%list.
Proof.
  induction d as [|[k' v'] d IH]; simpl; [done|].
  rewrite not_elem_of_cons. intros [Hne Hk].
  case_decide; [done|]. by rewrite IH.
Qed.

(** The second loop appends the finished identifiers in the order in which
    it meets them. *)
Lemma build_results_spec rows ids d :
  NoDup ids -> (forall j, j ∈ ids -> j ∈ rows.*1.*1) -> (forall j, j ∈ ids -> j ∉ d.*1) ->
  build_results ids (fold_left add_row rows scan0) d =
    Return (d ++ map (fun j => (j, {| res_status := FINISHED;
                                       res_exitcode := code_of rows j |}))
                   (filter (fun j => finished_in rows j = true) ids))%list.
Proof.
  revert d. induction ids as [|j ids IH]; intros d Hnd Hin Hfresh; simpl.
  - by rewrite app_nil_r.
  - apply NoDup_cons in Hnd as [Hj Hnd].
    destruct (last_row_is_Some rows j) as [[[j' st] cd] Hl]; [apply Hin; by left|].
    assert (finished_in rows j = negb (in_run_states st)) as Hfin.
    { unfold finished_in. by rewrite Hl. }
    assert (code_of rows j = cd) as Hcode.
    { unfold code_of. by rewrite Hl. }
    unfold getitem. rewrite fold_add_row_states, fold_add_row_exitcodes, Hl. simpl.
    rewrite filter_cons.
    destruct (decide (finished_in rows j = true)) as [Hf|Hf]; rewrite Hfin in Hf;
      destruct (in_run_states st); simpl in *; try done.
    + rewrite od_set_fresh by (apply Hfresh; by left).
      rewrite IH; [| done | intros i Hi; apply Hin; by right |].
      * simpl. rewrite Hcode. by rewrite <-app_assoc.
      * intros i Hi. rewrite fmap_app, elem_of_app. simpl.
        rewrite list_elem_of_singleton. intros [Hd| ->]; [|done].
        revert Hd. apply Hfresh. by right.
    + apply IH; [done| |]; intros i Hi; [apply Hin|apply Hfresh]; by right.
Qed.

(** One round on a poll whose rows are well formed. *)
Lemma listen_iteration_spec {order : SetOrder}
    (command : list string) (interval : Z) (w : world) (out : string) :
  0 <= interval ->
  proc_out w (length (spawned w)) = Prints out ->
  forallb poll_row_ok (data_rows out) = true ->
  listen_iteration command interval w =
    (Return tt, after_round command interval (published (surviving (data_rows out))) w).
Proof.
  intros Hinterval Hout Hok.
  unfold listen_iteration, bind, lift, check_output, results_put, time_sleep, modify.
  rewrite Hout. fold (data_rows out). rewrite scan_rows_spec by done.
  rewrite fold_add_row_ids. simpl.
  rewrite build_results_spec.
  - simpl. by rewrite decide_False by lia.
  - apply iter_set_NoDup.
  - intros j. by rewrite iter_set_elem.
  - intros j _. apply not_elem_of_nil.
Qed.

Lemma published_keys {order : SetOrder} rows :
  (published rows).*1 =
    filter (fun j => finished_in rows j = true) (iter_set (rows.*1.*1)).
Proof.
  unfold published. rewrite <-list_fmap_compose. apply list_fmap_id.
Qed.




Lemma NoDup_only (l : list Z) (x : Z) :
  NoDup l -> (forall y, y ∈ l <-> y = x) -> l = [x].
Proof.
  intros Hnd Hl. destruct l as [|a l].
  { assert (x ∈ @nil Z) as Hx by (by apply Hl). by apply elem_of_nil in Hx. }
  assert (a = x) as -> by (apply Hl; by left).
  apply NoDup_cons in Hnd as [Hx Hnd].
  destruct l as [|b l]; [done|].
  assert (b = x) as -> by (apply Hl; right; by left).
  destruct Hx. by left.
Qed.

(** The poll of the specification's example publishes the entry of job 11
    and nothing else, whatever the order of the set. *)
Example listen_example {order : SetOrder} :
  listen_iteration ["sacct"] 1
    (quiet (lines ["JobID|State|ExitCode"; "10|RUNNING|"; "11|FAILED|1:0";
                   "11.batch|FAILED|1:0"; "12.extern|COMPLETED|0:0"])) =
  (Return tt,
   after_round ["sacct"] 1 [(11, {| res_status := FINISHED; res_exitcode := "1:0" |})]
     (quiet (lines ["JobID|State|ExitCode"; "10|RUNNING|"; "11|FAILED|1:0";
                    "11.batch|FAILED|1:0"; "12.extern|COMPLETED|0:0"]))).
Proof.
  erewrite listen_iteration_spec; [|lia|reflexivity..]. do 2 f_equal.
  set (rows := surviving _).
  assert (rows = [(10, "RUNNING", EmptyString); (11, "FAILED", "1:0")]) as Hrows by done.
  unfold published.
  rewrite (NoDup_only (filter _ _) 11).
  - by rewrite Hrows.
  - apply NoDup_filter, iter_set_NoDup.
  - intros j. rewrite list_elem_of_filter, iter_set_elem, Hrows. simpl.
    rewrite !elem_of_cons, elem_of_nil. split.
    + by intros [Hfin [->|[->|[]]]].
    + by intros ->; split; [|right; left].
Qed.




(** With a set that iterates in insertion order the published order is the
    order of first discovery. *)
Lemma listen_insertion_order (command : list string) (interval : Z) (w : world) (out : string) :
  0 <= interval ->
  proc_out w (length (spawned w)) = Prints out ->
  forallb poll_row_ok (data_rows out) = true ->
  ∃ res_dict,
    @listen_iteration insertion_order command interval w =
      (Return tt, after_round command interval res_dict w) ∧
    res_dict.*1 = discovery_order (surviving (data_rows out)).
Proof.
  intros Hinterval Hout Hok. exists (@published insertion_order (surviving (data_rows out))).
  split; [by apply listen_iteration_spec|]. exact (@published_keys insertion_order _).
Qed.

(** ** [cancel] *)

(** C8, as amended: [cancel] on a job that has no identifier raises nothing;
    it renders the missing identifier as [None] and gives the wrapped
    command line [scancel None] to the shell, once, leaving the object and
    the rest of the world as they were. *)
Theorem cancel_without_job_id {collab : Collaborators} (s : state) :
  _job_id (self s) = None ->
  cancel s =
    (Return tt,
     {| self := self s;
        env := {| proc_out := proc_out (env s); spawned := spawned (env s);
                  shell := (shell (env s) ++ [get_command "scancel None"])%list;
                  queue := queue (env s); slept := slept (env s) |};
        calls := calls s |}).
Proof.
  intros Hid. unfold cancel, bind, get, in_env, os_system, modify. simpl.
  by rewrite Hid.
Qed.

Lemma cancel_without_job_id_witness :
  @cancel plain (fresh job0 (quiet EmptyString)) =
    (Return tt,
     {| self := job0;
        env := {| proc_out := fun _ => Prints EmptyString; spawned := [];
                  shell := ["scancel None"]; queue := []; slept := [] |};
        calls := [] |}).
Proof.
  exact (@cancel_without_job_id plain (fresh job0 (quiet EmptyString)) eq_refl).
Defined.

(** C8, as stated, fails: on a freshly constructed job [cancel] returns. *)
Lemma cancel_does_not_raise :
  ¬ ∃ e, (@cancel plain (fresh job0 (quiet EmptyString))).1 = Raise e.
Proof. by intros [e He]. Qed.

(** ** [submit] *)

Lemma split_no_sep sep s :
  all_chars (fun c => negb (Ascii.eqb c sep)) s = true -> split sep s = [s].
Proof.
  induction s as [|c s IH]; simpl; [done|].
  intros [Hc Hs]%andb_prop. apply negb_true_iff in Hc. rewrite Hc, IH; done.
Qed.

Lemma rstrip_snoc c s :
  all_chars (fun a => negb (Ascii.eqb a c)) s = true ->
  rstrip c (s ++ String c EmptyString) = s.
Proof.
  induction s as [|a s IH]; simpl.
  - by rewrite Ascii.eqb_refl.
  - intros [Ha Hs]%andb_prop. apply negb_true_iff in Ha. rewrite IH by done.
    destruct s; [by rewrite Ha|done].
Qed.

Lemma all_chars_impl (p q : ascii -> bool) s :
  (forall c, p c = true -> q c = true) -> all_chars p s = true -> all_chars q s = true.
Proof.
  intros Hpq. induction s as [|c s IH]; simpl; [done|].
  intros [Hc Hs]%andb_prop. by rewrite Hpq, IH.
Qed.

Lemma all_chars_app p s t :
  all_chars p (s ++ t) = all_chars p s && all_chars p t.
Proof. induction s as [|c s IH]; simpl; [done|]. by rewrite IH, andb_assoc. Qed.

Lemma lstrip_ws_no_space s :
  all_chars (fun c => negb (is_space c)) s = true -> lstrip_ws s = s.
Proof.
  destruct s as [|c s]; simpl; [done|].
  intros [Hc _]%andb_prop. apply negb_true_iff in Hc. by rewrite Hc.
Qed.

Lemma rstrip_ws_no_space s :
  all_chars (fun c => negb (is_space c)) s = true -> rstrip_ws s = s.
Proof.
  induction s as [|c s IH]; simpl; [done|].
  intros [Hc Hs]%andb_prop. apply negb_true_iff in Hc. rewrite IH by done.
  destruct s; [by rewrite Hc|done].
Qed.

Lemma string_of_uint_digits d : all_chars is_digit (NilEmpty.string_of_uint d) = true.
Proof. induction d; simpl; done. Qed.

Lemma int_digits_uint d acc b :
  d ≠ Decimal.Nil ∨ b = true ->
  int_digits (NilEmpty.string_of_uint d) acc b = Some (uint_value d acc).
Proof.
  revert acc b.
  induction d as [|d IH|d IH|d IH|d IH|d IH|d IH|d IH|d IH|d IH|d IH]; intros acc b Hd;
    [destruct Hd as [? | ->]; done|..]; simpl;
    (rewrite IH by (by right)); do 2 f_equal; unfold digit_val;
    match goal with
    | |- context [Z.of_nat (nat_of_ascii ?c)] =>
        let v := eval vm_compute in (Z.of_nat (nat_of_ascii c)) in
        change (Z.of_nat (nat_of_ascii c)) with v
    end; lia.
Qed.

Lemma uint_value_pos d p : uint_value d (Z.pos p) = Z.pos (Pos.of_uint_acc d p).
Proof.
  revert p. induction d; intros p; simpl; [done|..];
    rewrite <-IHd; f_equal; lia.
Qed.

Lemma uint_value_zero d : uint_value d 0 = Z.of_N (Pos.of_uint d).
Proof.
  induction d; simpl; [done|done|..]; apply uint_value_pos.
Qed.

Lemma digit_not_space c : is_digit c = true -> negb (is_space c) = true.
Proof.
  unfold is_digit, is_space. generalize (nat_of_ascii c). intros n Hn.
  apply andb_prop in Hn as [H1%Nat.leb_le H2%Nat.leb_le].
  apply negb_true_iff. apply orb_false_iff; split.
  - apply andb_false_iff. right. apply Nat.leb_gt. lia.
  - apply Nat.eqb_neq. lia.
Qed.

Lemma digit_not_char c (x : ascii) :
  (nat_of_ascii x < 48 ∨ 57 < nat_of_ascii x)%nat ->
  is_digit c = true -> negb (Ascii.eqb c x) = true.
Proof.
  intros Hx Hc. apply negb_true_iff, Ascii.eqb_neq. intros ->.
  unfold is_digit in Hc. apply andb_prop in Hc as [H1%Nat.leb_le H2%Nat.leb_le]. lia.
Qed.

(** The digits of a positive number read back as that number. *)
Lemma py_int_digits d :
  d ≠ Decimal.Nil ->
  py_int (NilEmpty.string_of_uint d) = Some (uint_value d 0) ∧
  py_int (String "-" (NilEmpty.string_of_uint d)) = Some (- uint_value d 0).
Proof.
  intros Hd.
  assert (all_chars (fun c => negb (is_space c)) (NilEmpty.string_of_uint d) = true) as Hns.
  { eapply all_chars_impl; [apply digit_not_space|apply string_of_uint_digits]. }
  unfold py_int. split.
  - rewrite rstrip_ws_no_space, lstrip_ws_no_space by done.
    rewrite <-(int_digits_uint d 0 false) by (by left).
    by destruct d.
  - rewrite rstrip_ws_no_space, lstrip_ws_no_space by (simpl; by rewrite Hns).
    by rewrite int_digits_uint by (by left).
Qed.

Lemma py_int_str_of_int n : py_int (str_of_int n) = Some n.
Proof.
  destruct n as [|p|p]; [done|..]; unfold str_of_int; simpl;
    pose proof (Unsigned.to_uint_nonnil p) as Hnn;
    destruct (py_int_digits (Pos.to_uint p) Hnn) as [Hpos Hneg];
    assert (uint_value (Pos.to_uint p) 0 = Z.pos p) as Hval
      by (by rewrite uint_value_zero, Unsigned.of_to);
    unfold NilZero.string_of_uint.
  - rewrite <-Hval, <-Hpos. by destruct (Pos.to_uint p).
  - change (Z.neg p) with (- Z.pos p). rewrite <-Hval, <-Hneg. by destruct (Pos.to_uint p).
Qed.

Lemma char_ne (c x : ascii) :
  nat_of_ascii c ≠ nat_of_ascii x -> negb (Ascii.eqb c x) = true.
Proof. intros Hne. apply negb_true_iff, Ascii.eqb_neq. by intros ->. Qed.

(** The text of an integer has no space and no newline in it. *)
Lemma str_of_int_chars n (x : ascii) :
  (nat_of_ascii x < 45)%nat ->
  all_chars (fun c => negb (Ascii.eqb c x)) (str_of_int n) = true.
Proof.
  intros Hx.
  assert (forall d, all_chars (fun c => negb (Ascii.eqb c x)) (NilEmpty.string_of_uint d) = true)
    as Hd.
  { intros d. eapply all_chars_impl; [|apply string_of_uint_digits].
    intros c. apply digit_not_char. lia. }
  assert (forall d, all_chars (fun c => negb (Ascii.eqb c x)) (NilZero.string_of_uint d) = true)
    as Hz.
  { intros d. unfold NilZero.string_of_uint. destruct d; try apply Hd.
    cbn [all_chars]. rewrite andb_true_r. apply char_ne.
    change (nat_of_ascii "0") with 48%nat. lia. }
  destruct n as [|p|p]; unfold str_of_int; cbn [Z.to_int NilZero.string_of_int all_chars];
    try apply Hz.
  rewrite Hz, andb_true_r. apply char_ne. change (nat_of_ascii "-") with 45%nat. lia.
Qed.

Section Submit.
Context {collab : Collaborators}.
Variables (s : state) (argv : list string) (out : string).
Hypothesis Hcmd : _get_submit_command (self s) = Return argv.
Hypothesis Hout : proc_out (env s) (length (spawned (env s))) = Prints out.

Lemma submit_unfold :
  submit s =
    match split SPACE out !! 3%nat with
    | None => (Raise IndexError, spawn argv s)
    | Some field =>
        match py_int (rstrip NL field) with
        | None => (Raise ValueError, spawn argv s)
        | Some job_id => (Return job_id, with_job_id job_id (spawn argv s))
        end
    end.
Proof.
  unfold submit, bind, get, lift, in_env, check_output, index, int. rewrite Hcmd. simpl.
  rewrite Hout. destruct (split SPACE out !! 3%nat) as [field|]; [|done].
  by destruct (py_int (rstrip NL field)).
Qed.

End Submit.

Lemma template_field n :
  split SPACE ("Submitted batch job " ++ str_of_int n ++ String NL EmptyString) !! 3%nat
  = Some (str_of_int n ++ String NL EmptyString).
Proof.
  assert (split SPACE (str_of_int n ++ String NL EmptyString)
          = [str_of_int n ++ String NL EmptyString]) as Hs.
  { apply split_no_sep. rewrite all_chars_app, str_of_int_chars by (vm_compute; lia). done. }
  revert Hs. generalize (str_of_int n ++ String NL EmptyString). intros field Hs.
  cbv [String.append]. unfold SPACE in *. simpl. by rewrite Hs.
Qed.

(** C4, as amended: [submit] splits the whole output at single spaces, takes
    the fourth field, removes the newlines at its end and reads it as an
    integer, which it stores on the object and returns; with fewer than four
    fields it raises [IndexError] and on a field that is not an integer
    [ValueError].  On the output [Submitted batch job n] followed by a
    newline this is [n]. *)
Theorem submit_reads_fourth_field {collab : Collaborators}
    (s : state) (argv : list string) (out : string) :
  _get_submit_command (self s) = Return argv ->
  proc_out (env s) (length (spawned (env s))) = Prints out ->
  submit s =
    match split SPACE out !! 3%nat with
    | None => (Raise IndexError, spawn argv s)
    | Some field =>
        match py_int (rstrip NL field) with
        | None => (Raise ValueError, spawn argv s)
        | Some job_id => (Return job_id, with_job_id job_id (spawn argv s))
        end
    end ∧
  ∀ n, out = "Submitted batch job " ++ str_of_int n ++ String NL EmptyString ->
       submit s = (Return n, with_job_id n (spawn argv s)).
Proof.
  intros Hcmd Hout. split; [by apply submit_unfold|].
  intros n ->. rewrite (submit_unfold s argv _ Hcmd Hout), template_field.
  rewrite rstrip_snoc by (apply str_of_int_chars; vm_compute; lia).
  by rewrite py_int_str_of_int.
Qed.

Lemma submit_reads_fourth_field_witness :
  @submit plain (fresh job0 (quiet (lines ["Submitted batch job 4242"]))) =
    match split SPACE (lines ["Submitted batch job 4242"]) !! 3%nat with
    | None =>
        (Raise IndexError,
         spawn ["sbatch"; "run.sh"] (fresh job0 (quiet (lines ["Submitted batch job 4242"]))))
    | Some field =>
        match py_int (rstrip NL field) with
        | None =>
            (Raise ValueError,
             spawn ["sbatch"; "run.sh"]
               (fresh job0 (quiet (lines ["Submitted batch job 4242"]))))
        | Some job_id =>
            (Return job_id,
             with_job_id job_id
               (spawn ["sbatch"; "run.sh"]
                  (fresh job0 (quiet (lines ["Submitted batch job 4242"])))))
        end
    end ∧
  ∀ n, lines ["Submitted batch job 4242"]
       = "Submitted batch job " ++ str_of_int n ++ String NL EmptyString ->
       @submit plain (fresh job0 (quiet (lines ["Submitted batch job 4242"]))) =
         (Return n,
          with_job_id n
            (spawn ["sbatch"; "run.sh"]
               (fresh job0 (quiet (lines ["Submitted batch job 4242"]))))).
Proof.
  exact (@submit_reads_fourth_field plain
           (fresh job0 (quiet (lines ["Submitted batch job 4242"])))
           ["sbatch"; "run.sh"] (lines ["Submitted batch job 4242"]) eq_refl eq_refl).
Defined.

(** The example of the specification: job identifier 4242. *)
Example submit_4242 :
  @submit plain (fresh job0 (quiet (lines ["Submitted batch job 4242"]))) =
    (Return 4242,
     with_job_id 4242
       (spawn ["sbatch"; "run.sh"] (fresh job0 (quiet (lines ["Submitted batch job 4242"]))))).
Proof. reflexivity. Qed.

(** C4, as stated, fails: the fourth token of the first line of this output
    is 4242, and [submit] raises [ValueError], because the field it reads
    runs over the line break up to the next space. *)
Lemma submit_not_first_line :
  fourth_token_of_first_line (lines ["Submitted batch job 4242"; "extra line"]) = Some 4242 ∧
  (@submit plain (fresh job0 (quiet (lines ["Submitted batch job 4242"; "extra line"])))).1
  = Raise ValueError.
Proof. split; reflexivity. Qed.

(** ** The submit command *)

Lemma append_cons (c : ascii) (s t : string) : String c s ++ t = String c (s ++ t).
Proof. reflexivity. Qed.

Lemma append_nil_r (s : string) : s ++ EmptyString = s.
Proof. induction s as [|c s IH]; [done|]. by rewrite append_cons, IH. Qed.

Lemma append_assoc (s t u : string) : (s ++ t) ++ u = s ++ t ++ u.
Proof. induction s as [|c s IH]; [done|]. by rewrite !append_cons, IH. Qed.

Lemma concat_text_app l1 l2 :
  concat_text (l1 ++ l2) = concat_text l1 ++ concat_text l2.
Proof.
  induction l1 as [|w l1 IH]; [done|].
  unfold concat_text in *. cbn [app foldr]. by rewrite IH, append_assoc.
Qed.

(** The chain of [if]s adds the text of each field that holds a value. *)
Lemma fold_flags (l : list (string * bool * option string)) (acc : string) :
  fold_left (fun acc f => if truthy f.2 then acc ++ flag_text f else acc) l acc =
  acc ++ concat_text (map flag_text (filter (fun f => truthy f.2 = true) l)).
Proof.
  revert acc. induction l as [|f l IH]; intros acc; cbn [fold_left].
  - by rewrite append_nil_r.
  - rewrite IH, filter_cons. destruct (truthy f.2) eqn:Hf.
    + rewrite decide_True by done. cbn [map]. unfold concat_text at 2. cbn [foldr].
      by rewrite append_assoc.
    + by rewrite decide_False by done.
Qed.

Lemma submit_line_table {collab : Collaborators} (o : Slurm) :
  submit_line o = command_line truthy o.
Proof.
  unfold command_line. rewrite <-append_assoc, <-fold_flags.
  unfold submit_line. cbv zeta.
  set (flags := fold_left _ _ _).
  set (chain := if truthy (export o) then _ else _).
  assert (chain = flags) as -> by (subst chain flags; unfold flag_fields, flag_text; simpl;
    repeat (match goal with |- context [truthy ?v] => destruct (truthy v) end); reflexivity).
  destruct (run_args o) as [[a|l]|]; simpl.
  - destruct a; [done|]. by rewrite !append_assoc.
  - destruct l; [done|]. by rewrite !append_assoc.
  - done.
Qed.

Lemma plain_char_inv c :
  plain_char c = true ->
  shlex_ws c = false ∧ shlex_quote c = false ∧ Ascii.eqb c BACKSLASH = false.
Proof.
  unfold plain_char. intros [[H1 H2]%andb_prop H3]%andb_prop.
  by rewrite !negb_true_iff in *.
Qed.

Lemma snoc_app tok c w : snoc tok c ++ w = tok ++ String c w.
Proof. unfold snoc. by rewrite append_assoc. Qed.

Lemma snoc_not_nil tok c : snoc tok c ≠ EmptyString.
Proof. unfold snoc. by destruct tok. Qed.

(** Inside a word, plain characters are collected up to the next space. *)
Lemma shlex_in_word w tok rest :
  all_chars plain_char w = true -> tok ≠ EmptyString ∨ w ≠ EmptyString ->
  shlex_go (w ++ String " " rest) LWord tok false =
    omap_outcome (cons (tok ++ w)) (shlex_go rest LWhite EmptyString false).
Proof.
  revert tok. induction w as [|c w IH]; intros tok Hw Hne.
  - destruct Hne as [Hne|]; [|done]. rewrite append_nil_r.
    change (EmptyString ++ String " " rest) with (String " " rest). cbn [shlex_go].
    change (shlex_ws " ") with true. cbv iota. by destruct tok.
  - cbn [all_chars] in Hw. apply andb_prop in Hw as [Hc Hw].
    apply plain_char_inv in Hc as (Hws & Hq & Hb).
    rewrite append_cons. cbn [shlex_go]. rewrite Hws, Hq, Hb.
    rewrite IH by (done || left; apply snoc_not_nil).
    by rewrite snoc_app.
Qed.

Lemma shlex_at_end w tok :
  all_chars plain_char w = true -> tok ≠ EmptyString ∨ w ≠ EmptyString ->
  shlex_go w LWord tok false = Return [tok ++ w].
Proof.
  revert tok. induction w as [|c w IH]; intros tok Hw Hne.
  - destruct Hne as [Hne|]; [|done]. rewrite append_nil_r. cbn [shlex_go]. by destruct tok.
  - cbn [all_chars] in Hw. apply andb_prop in Hw as [Hc Hw].
    apply plain_char_inv in Hc as (Hws & Hq & Hb).
    cbn [shlex_go]. rewrite Hws, Hq, Hb.
    rewrite IH by (done || left; apply snoc_not_nil).
    by rewrite snoc_app.
Qed.

Lemma plain_word_inv w :
  plain_word w = true ->
  ∃ c w', w = String c w' ∧ shlex_ws c = false ∧ shlex_quote c = false ∧
          Ascii.eqb c BACKSLASH = false ∧ all_chars plain_char w' = true.
Proof.
  destruct w as [|c w']; [done|]. cbn [plain_word all_chars].
  intros [Hc Hw]%andb_prop. apply plain_char_inv in Hc as (Hws & Hq & Hb).
  by exists c, w'.
Qed.

(** A plain word followed by a space is one token. *)
Lemma shlex_word w rest :
  plain_word w = true ->
  shlex_go (w ++ String " " rest) LWhite EmptyString false =
    omap_outcome (cons w) (shlex_go rest LWhite EmptyString false).
Proof.
  intros (c & w' & -> & Hws & Hq & Hb & Hw)%plain_word_inv.
  rewrite append_cons. cbn [shlex_go]. rewrite Hws, Hq, Hb.
  by rewrite shlex_in_word by (done || by left).
Qed.

Lemma shlex_last_word w :
  plain_word w = true -> shlex_go w LWhite EmptyString false = Return [w].
Proof.
  intros (c & w' & -> & Hws & Hq & Hb & Hw)%plain_word_inv.
  cbn [shlex_go]. rewrite Hws, Hq, Hb.
  by rewrite shlex_at_end by (done || by left).
Qed.

Lemma omap_outcome_compose {A B C} (f : A -> B) (g : B -> C) (o : outcome A) :
  omap_outcome g (omap_outcome f o) = omap_outcome (fun a => g (f a)) o.
Proof. by destruct o. Qed.

(** Plain words, each followed by a space, are split into themselves. *)
Lemma shlex_words ws rest :
  forallb plain_word ws = true ->
  shlex_split (concat_text (map (fun w => w ++ " ") ws) ++ rest) =
    omap_outcome (app ws) (shlex_split rest).
Proof.
  unfold shlex_split. induction ws as [|w ws IH]; intros Hws.
  - cbn [map concat_text foldr]. change (EmptyString ++ rest) with rest.
    by destruct (shlex_go rest LWhite EmptyString false).
  - cbn [forallb] in Hws. apply andb_prop in Hws as [Hw Hws].
    unfold concat_text in *. cbn [map foldr]. rewrite !append_assoc.
    change (String " " EmptyString ++ ?x) with (String " " x).
    rewrite shlex_word, IH by done. by rewrite omap_outcome_compose.
Qed.

(** A space-joined sequence of plain words is split into its members. *)
Lemma shlex_join ws :
  forallb plain_word ws = true -> shlex_split (join " " ws) = Return ws.
Proof.
  unfold shlex_split. induction ws as [|w ws IH]; intros Hws; [done|].
  cbn [forallb] in Hws. apply andb_prop in Hws as [Hw Hws].
  destruct ws as [|w' ws]; [by apply shlex_last_word|].
  change (join " " (w :: w' :: ws)) with (w ++ String " " (join " " (w' :: ws))).
  by rewrite shlex_word, IH.
Qed.

Lemma flag_text_words f :
  flag_text f = concat_text (map (fun w => w ++ " ") (flag_words f)).
Proof.
  destruct f as [[flag [|]] v]; unfold flag_text, flag_words, concat_text; cbn [fst snd map foldr].
  - by rewrite append_nil_r, append_assoc.
  - rewrite append_nil_r, append_assoc. done.
Qed.

Lemma flags_text_words (fs : list (string * bool * option string)) :
  concat_text (map flag_text fs) =
  concat_text (map (fun w => w ++ " ") (concat (map flag_words fs))).
Proof.
  induction fs as [|f fs IH]; [done|].
  cbn [map concat]. rewrite map_app, concat_text_app, <-IH, <-flag_text_words. done.
Qed.

Lemma command_line_words {collab : Collaborators} (o : Slurm) :
  command_line truthy o =
  concat_text (map (fun w => w ++ " ") (command_words o)) ++ args_text (run_args o).
Proof.
  unfold command_line, command_words. cbn [map].
  rewrite map_app, flags_text_words. cbn [map].
  change (concat_text (?w :: ?l)) with (w ++ concat_text l).
  rewrite concat_text_app.
  change (concat_text [?w]) with (w ++ EmptyString).
  by rewrite append_nil_r, !append_assoc.
Qed.

Lemma plain_word_app a b :
  plain_word a = true -> plain_word b = true -> plain_word (a ++ b) = true.
Proof.
  destruct a as [|c a]; [done|]. destruct b as [|d b]; [done|].
  rewrite append_cons. cbn [plain_word]. intros Ha Hb.
  change (all_chars plain_char (String c a ++ String d b) = true).
  by rewrite all_chars_app, Ha, Hb.
Qed.

Lemma flag_words_plain (fs : list (string * bool * option string)) :
  Forall (fun f => plain_word f.1.1 = true) fs ->
  forallb (fun f => implb (truthy f.2) (plain_word (fmt f.2))) fs = true ->
  forallb plain_word (concat (map flag_words (filter (fun f => truthy f.2 = true) fs))) = true.
Proof.
  induction 1 as [|f fs Hf Hfs IH]; [done|]. cbn [forallb].
  intros [Hv Hvs]%andb_prop. rewrite filter_cons.
  destruct (truthy f.2) eqn:Ht.
  - rewrite decide_True by done. cbn [map concat]. rewrite forallb_app, IH by done.
    rewrite andb_true_r. simpl in Hv. unfold flag_words.
    destruct f.1.2; cbn [forallb]; rewrite ?Hf, ?Hv, ?plain_word_app; done.
  - rewrite decide_False by done. by apply IH.
Qed.

Lemma command_words_plain {collab : Collaborators} (o : Slurm) :
  forallb (fun f => implb (truthy f.2) (plain_word (fmt f.2))) (flag_fields o) = true ->
  plain_word (wrapper_get (run_script o)) = true ->
  forallb plain_word (command_words o) = true.
Proof.
  intros Hflags Hscript. unfold command_words.
  change (forallb plain_word (?w :: ?l)) with (plain_word w && forallb plain_word l).
  rewrite forallb_app, flag_words_plain; [by cbn [forallb]; rewrite Hscript| |done].
  unfold flag_fields. repeat constructor.
Qed.

(** C3, as amended: the command line has, after [sbatch], one flag for
    every optional field that holds a non-empty value and nothing for a
    field that is [None] or empty, in the order name, log, partition,
    excluded nodes, clusters, QoS, memory, time, export; then the resolved
    run script; then the run arguments, a string as it is and a sequence
    joined by spaces.  The command is that line, wrapped and split into
    words; when nothing wraps it and the values and the script are plain
    words, its words are [sbatch], the flags with their values, the script,
    and the words of the run arguments. *)
Theorem submit_command_flags {collab : Collaborators} (o : Slurm) :
  submit_line o = command_line truthy o ∧
  _get_submit_command o = shlex_split (get_command (command_line truthy o)) ∧
  (get_command (command_line truthy o) = command_line truthy o ->
   forallb (fun f => implb (truthy f.2) (plain_word (fmt f.2))) (flag_fields o) = true ->
   plain_word (wrapper_get (run_script o)) = true ->
   _get_submit_command o =
     omap_outcome (app (command_words o)) (shlex_split (args_text (run_args o)))).
Proof.
  split; [apply submit_line_table|].
  unfold _get_submit_command. cbv zeta. rewrite submit_line_table.
  split; [done|]. intros -> Hflags Hscript.
  rewrite command_line_words. apply shlex_words. by apply command_words_plain.
Qed.

Lemma submit_command_flags_witness :
  @_get_submit_command plain job1 =
    Return ["sbatch"; "-J"; "fit"; "-o"; "fit.log"; "-p"; "long"; "--qos=high";
            "--time=01:00:00"; "run.sh"; "-n"; "10"].
Proof.
  exact (proj2 (proj2 (@submit_command_flags plain job1)) eq_refl eq_refl eq_refl).
Defined.

(** C3, as stated, fails: the name of this job is set, to the empty string,
    and the command line has no [-J] flag, where one flag for every field
    that is set would give [-J] followed by the empty name. *)
Lemma submit_no_flag_for_empty_name :
  name job_unnamed = Some EmptyString ∧
  @submit_line plain job_unnamed = "sbatch run.sh " ∧
  @command_line plain is_set job_unnamed = "sbatch -J  run.sh " ∧
  @_get_submit_command plain job_unnamed = Return ["sbatch"; "run.sh"].
Proof. repeat split; reflexivity. Qed.

(** ** Worked examples *)

(** A running job with its [.batch] step: [RUNNING], and no exit code. *)
Example status_running_example :
  @status plain
    (fresh job0 (quiet (lines ["JobID|State|ExitCode"; "4242|RUNNING|"; "4242.batch|RUNNING|"])))
  = (Return RUNNING,
     queried ["sacct"; "-P"; "-o"; "Job,State,ExitCode"] (Return RUNNING)
       (fresh job0
          (quiet (lines ["JobID|State|ExitCode"; "4242|RUNNING|"; "4242.batch|RUNNING|"])))).
Proof. reflexivity. Qed.

(** Only a [.batch] row: the lookup of the state fails. *)
Example status_key_error_example :
  (@status plain
     (fresh job0 (quiet (lines ["JobID|State|ExitCode"; "4242.batch|RUNNING|"])))).1
  = Raise KeyError.
Proof. reflexivity. Qed.

(** After [submit] the query names the job; [exitcode] asks once and then
    answers from the object. *)
Example exitcode_twice :
  let w := {| proc_out := fun n => match n with
                                   | O => Prints (lines ["Submitted batch job 4242"])
                                   | _ => Prints (lines ["JobID|State|ExitCode";
                                                         "4242|COMPLETED|0:0"])
                                   end;
              spawned := []; shell := []; queue := []; slept := [] |} in
  let s := @run_ops plain [OpSubmit; OpExitcode; OpExitcode] (fresh job0 w) in
  _job_id (self s) = Some 4242 ∧
  _exitcode (self s) = Some "0:0" ∧
  spawned (env s) = [["sbatch"; "run.sh"];
                     ["sacct"; "-j"; "4242"; "-P"; "-o"; "Job,State,ExitCode"]] ∧
  calls s = [Return FINISHED].
Proof. repeat split; reflexivity. Qed.

(** The listener of user [alice] on partition [long]: two rounds, two
    published mappings. *)
Example listen_two_rounds :
  let w := {| proc_out := fun n => match n with
                                   | O => Prints (lines ["JobID|State|ExitCode";
                                                         "10|PENDING|0:0"; "11|FAILED|1:0"])
                                   | _ => Prints (lines ["JobID|State|ExitCode";
                                                         "10|COMPLETED|0:0"; "11|FAILED|1:0"])
                                   end;
              spawned := []; shell := []; queue := []; slept := [] |} in
  ∃ listen_func,
    @get_listen_func plain insertion_order (Some "long") None = Return listen_func ∧
    (listen_func 2%nat 1 w).1 = Return tt ∧
    spawned (listen_func 2%nat 1 w).2 =
      [["sacct"; "-r"; "long"; "-u"; "alice"; "-P"; "-o"; "JobID,State,ExitCode"];
       ["sacct"; "-r"; "long"; "-u"; "alice"; "-P"; "-o"; "JobID,State,ExitCode"]] ∧
    queue (listen_func 2%nat 1 w).2 =
      [[(11, {| res_status := FINISHED; res_exitcode := "1:0" |})];
       [(10, {| res_status := FINISHED; res_exitcode := "0:0" |});
        (11, {| res_status := FINISHED; res_exitcode := "1:0" |})]] ∧
    slept (listen_func 2%nat 1 w).2 = [1; 1].
Proof. eexists. repeat split; reflexivity. Qed.

(** ** Further properties: the query command *)

Lemma digit_plain c : is_digit c = true -> plain_char c = true.
Proof.
  intros Hc. unfold plain_char, shlex_ws, shlex_quote.
  assert (forall x : ascii, (nat_of_ascii x < 48 ∨ 57 < nat_of_ascii x)%nat ->
                            Ascii.eqb c x = false) as Hne.
  { intros x Hx. apply negb_true_iff. by apply digit_not_char. }
  rewrite !Hne; [done|vm_compute; lia..].
Qed.

Lemma str_of_int_plain n : plain_word (str_of_int n) = true.
Proof.
  assert (forall d, all_chars plain_char (NilEmpty.string_of_uint d) = true) as Hd.
  { intros d. eapply all_chars_impl; [apply digit_plain|apply string_of_uint_digits]. }
  assert (forall d, plain_word (NilZero.string_of_uint d) = true) as Hz.
  { intros d. unfold NilZero.string_of_uint. destruct d; try done;
      unfold plain_word; cbn [NilEmpty.string_of_uint];
      match goal with |- all_chars _ (String ?c (NilEmpty.string_of_uint ?d)) = _ =>
        cbn [all_chars]; by rewrite Hd end. }
  destruct n as [|p|p]; unfold str_of_int; cbn [Z.to_int NilZero.string_of_int]; try apply Hz.
  specialize (Hz (Pos.to_uint p)). unfold plain_word in *.
  destruct (NilZero.string_of_uint (Pos.to_uint p)); [done|].
  cbn [all_chars] in *. by rewrite Hz.
Qed.

Lemma shlex_three_words a b c :
  plain_word a = true -> plain_word b = true -> plain_word c = true ->
  shlex_split (a ++ String " " (b ++ String " " c)) = Return [a; b; c].
Proof.
  intros Ha Hb Hc. unfold shlex_split.
  by rewrite !shlex_word, shlex_last_word.
Qed.

Lemma sacct_line_words (column : string) (job_id : option Z)
    (user partition clusters : option string) :
  sacct_line column job_id user partition clusters =
    concat_text
      (map (fun w => w ++ " ")
         (["sacct"]
          ++ (if truthy partition then ["-r"; fmt partition] else [])
          ++ (if truthy clusters then ["-M"; fmt clusters] else [])
          ++ (if truthy_int job_id then ["-j"; fmt_int job_id] else [])
          ++ (if truthy user then ["-u"; fmt user] else []))%list)
    ++ "-P" ++ String " " ("-o" ++ String " " column).
Proof.
  unfold sacct_line. cbv zeta.
  destruct (truthy partition), (truthy clusters), (truthy_int job_id), (truthy user);
    unfold concat_text; cbn [app map foldr]; rewrite ?append_assoc; reflexivity.
Qed.

Lemma sacct_command_plain {collab : Collaborators} (column : string) (job_id : option Z)
    (user partition clusters : option string) :
  get_command (sacct_line column job_id user partition clusters)
  = sacct_line column job_id user partition clusters ->
  plain_opt partition = true -> plain_opt clusters = true -> plain_opt user = true ->
  plain_word column = true ->
  _get_sacct_command column job_id user partition clusters
  = Return (sacct_words column job_id user partition clusters).
Proof.
  intros Hwrap Hp Hc Hu Hcol. unfold _get_sacct_command. cbv zeta. rewrite Hwrap.
  rewrite sacct_line_words, shlex_words.
  - rewrite shlex_three_words by done. unfold sacct_words. simpl.
    by rewrite <-!app_assoc.
  - unfold plain_opt in *. cbn [app forallb]. rewrite !forallb_app.
    destruct (truthy partition), (truthy clusters), (truthy_int job_id) eqn:Hj, (truthy user);
      simpl in *; rewrite ?Hp, ?Hc, ?Hu; try done;
      destruct job_id as [n|]; try done; simpl; by rewrite str_of_int_plain.
Qed.

(** X1: when nothing wraps the line and the values are plain words, the
    query command is [sacct], the options [-r], [-M], [-j] and [-u] of the
    arguments that hold a value, in this order, and [-P -o column]; an
    identifier that is [None] or 0 gives no [-j], and an identifier [n]
    other than 0 gives [-j] followed by the decimal text of [n]. *)
Theorem sacct_command_words {collab : Collaborators} (column : string) (job_id : option Z)
    (user partition clusters : option string) :
  get_command (sacct_line column job_id user partition clusters)
  = sacct_line column job_id user partition clusters ->
  plain_opt partition = true -> plain_opt clusters = true -> plain_opt user = true ->
  plain_word column = true ->
  _get_sacct_command column job_id user partition clusters
  = Return (sacct_words column job_id user partition clusters).
Proof. apply sacct_command_plain. Qed.

Lemma sacct_command_words_witness :
  @_get_sacct_command plain "Job,State,ExitCode" (Some 4242) None (Some "long") None
  = Return ["sacct"; "-r"; "long"; "-j"; "4242"; "-P"; "-o"; "Job,State,ExitCode"].
Proof.
  exact (@sacct_command_words plain "Job,State,ExitCode" (Some 4242) None
           (Some "long") None eq_refl eq_refl eq_refl eq_refl eq_refl).
Defined.

(** ** Further properties: [status] *)

(** [status] after a query that printed [out]. *)
Lemma status_verdict {collab : Collaborators} (s : state) (argv : list string) (out : string) :
  _get_sacct_command "Job,State,ExitCode" (_job_id (self s)) None
    (partition (self s)) (clusters (self s)) = Return argv ->
  proc_out (env s) (length (spawned (env s))) = Prints out ->
  status s = after_status argv (verdict out) s.
Proof.
  intros Hcmd Hout. unfold status, verdict, after_status.
  rewrite (status_body_unfold s argv out Hcmd Hout). cbv zeta.
  case_bool_decide; [done|].
  destruct (sacct_entries (data_rows out) ∅) as [m|e]; simpl; [|done].
  destruct (getitem m "finished") as [st|e]; simpl; [|done].
  destruct (in_run_states st); simpl; [done|].
  by destruct (getitem m "success").
Qed.

(** X2: a data row that does not have exactly three columns makes [status]
    raise [ValueError], after the one query, with the object as it was. *)
Theorem status_malformed_row {collab : Collaborators}
    (s : state) (argv : list string) (out : string) :
  _get_sacct_command "Job,State,ExitCode" (_job_id (self s)) None
    (partition (self s)) (clusters (self s)) = Return argv ->
  proc_out (env s) (length (spawned (env s))) = Prints out ->
  forallb three_columns (data_rows out) = false ->
  status s = (Raise ValueError, queried argv (Raise ValueError) s).
Proof.
  intros Hcmd Hout Hbad. rewrite (status_verdict s argv out Hcmd Hout).
  unfold verdict. case_bool_decide as Hrows; [by rewrite Hrows in Hbad|].
  by rewrite sacct_entries_bad.
Qed.

Lemma status_malformed_row_witness :
  @status plain
    (fresh job0 (quiet (lines ["JobID|State|ExitCode"; "4242|COMPLETED|0:0"; "4242.0|COMPLETED"])))
  = (Raise ValueError,
     queried ["sacct"; "-P"; "-o"; "Job,State,ExitCode"] (Raise ValueError)
       (fresh job0
          (quiet (lines ["JobID|State|ExitCode"; "4242|COMPLETED|0:0"; "4242.0|COMPLETED"])))).
Proof.
  exact (@status_malformed_row plain
           (fresh job0
              (quiet (lines ["JobID|State|ExitCode"; "4242|COMPLETED|0:0"; "4242.0|COMPLETED"])))
           ["sacct"; "-P"; "-o"; "Job,State,ExitCode"]
           (lines ["JobID|State|ExitCode"; "4242|COMPLETED|0:0"; "4242.0|COMPLETED"])
           eq_refl eq_refl eq_refl).
Defined.

(** X3: whenever [status] raises, whatever the exception, the object is as
    it was before the call: a failed query is never taken for a finished
    job.  A query process that fails gives [CalledProcessError], and a
    command that cannot be split gives the exception of the split without
    starting a process. *)
Theorem status_raise_keeps_object {collab : Collaborators} (s : state) (e : exn) :
  (status s).1 = Raise e ->
  self (status s).2 = self s ∧
  (∀ argv,
     _get_sacct_command "Job,State,ExitCode" (_job_id (self s)) None
       (partition (self s)) (clusters (self s)) = Return argv ->
     proc_out (env s) (length (spawned (env s))) = Fails ->
     e = CalledProcessError ∧ spawned (env (status s).2) = (spawned (env s) ++ [argv])%list) ∧
  (∀ e',
     _get_sacct_command "Job,State,ExitCode" (_job_id (self s)) None
       (partition (self s)) (clusters (self s)) = Raise e' ->
     e = e' ∧ env (status s).2 = env s).
Proof.
  unfold status, status_body, _get_sacct_entry, bind, get, lift, in_env, check_output, ret,
    update_self, modify.
  destruct (_get_sacct_command _ _ _ _ _) as [argv|e0]; simpl.
  - destruct (proc_out _ _) as [out| | |] eqn:Hfate; simpl.
    + destruct (1 <? _)%nat; simpl; [|done].
      destruct (sacct_entries _ _) as [m|e1]; simpl; [|by intros [= ->]].
      destruct (getitem m "finished") as [st|e1]; simpl; [|by intros [= ->]].
      destruct (in_run_states st); simpl; [done|].
      destruct (getitem m "success") as [code|e1]; simpl; [done|by intros [= ->]].
    + intros [= <-]. split; [done|]. split; [|done].
      by intros argv' [= <-] _.
    + intros [= <-]. split; [done|]. split; [|done]. by intros argv' _ ?.
    + intros [= <-]. split; [done|]. split; [|done]. by intros argv' _ ?.
  - intros [= <-]. split; [done|]. split; [done|]. by intros e' [= <-].
Qed.

Lemma status_raise_keeps_object_witness :
  self (@status plain
          {| self := job0;
             env := {| proc_out := fun _ => Fails; spawned := []; shell := []; queue := [];
                       slept := [] |};
             calls := [] |}).2 = job0.
Proof.
  exact (proj1 (@status_raise_keeps_object plain
                  {| self := job0;
                     env := {| proc_out := fun _ => Fails; spawned := []; shell := [];
                               queue := []; slept := [] |};
                     calls := [] |} CalledProcessError eq_refl)).
Defined.

(** X4: two calls of [status] in a row that are answered by the same output
    have the same outcome, and the second leaves the object as the first
    left it. *)
Theorem status_twice_same {collab : Collaborators}
    (s : state) (argv : list string) (out : string) :
  _get_sacct_command "Job,State,ExitCode" (_job_id (self s)) None
    (partition (self s)) (clusters (self s)) = Return argv ->
  proc_out (env s) (length (spawned (env s))) = Prints out ->
  proc_out (env s) (S (length (spawned (env s)))) = Prints out ->
  (status (status s).2).1 = (status s).1 ∧
  self (status (status s).2).2 = self (status s).2.
Proof.
  intros Hcmd Hout Hout'.
  rewrite (status_verdict s argv out Hcmd Hout).
  assert (forall s1, self s1 = self s ∨ (∃ code, self s1 = set_exitcode code (self s)) ->
            proc_out (env s1) = proc_out (env s) ->
            spawned (env s1) = (spawned (env s) ++ [argv])%list ->
            status s1 = after_status argv (verdict out) s1) as Hnext.
  { intros s1 Hself Hproc Hsp. apply status_verdict.
    - destruct Hself as [->|[code ->]]; done.
    - rewrite Hproc, Hsp, length_app. simpl. by rewrite Nat.add_1_r. }
  destruct (verdict out) as [[st [code|]]|e] eqn:Hv; unfold after_status at 2 3 4; simpl.
  - rewrite Hnext; [done|right; by exists code|done..].
  - rewrite Hnext; [done|by left|done..].
  - rewrite Hnext; [done|by left|done..].
Qed.

Lemma status_twice_same_witness :
  (@status plain
     (@status plain
        (fresh job0 (quiet (lines ["JobID|State|ExitCode"; "4242|FAILED|1:0"])))).2).1
  = (@status plain (fresh job0 (quiet (lines ["JobID|State|ExitCode"; "4242|FAILED|1:0"])))).1 ∧
  self (@status plain
          (@status plain
             (fresh job0 (quiet (lines ["JobID|State|ExitCode"; "4242|FAILED|1:0"])))).2).2
  = self (@status plain
            (fresh job0 (quiet (lines ["JobID|State|ExitCode"; "4242|FAILED|1:0"])))).2.
Proof.
  exact (@status_twice_same plain
           (fresh job0 (quiet (lines ["JobID|State|ExitCode"; "4242|FAILED|1:0"])))
           ["sacct"; "-P"; "-o"; "Job,State,ExitCode"]
           (lines ["JobID|State|ExitCode"; "4242|FAILED|1:0"]) eq_refl eq_refl eq_refl).
Defined.

(** ** Further properties: [submit] and sequences of calls *)

(** What a call of [submit] does to the object. *)
Lemma submit_object {collab : Collaborators} (s : state) :
  match (submit s).1 with
  | Return job_id => self (submit s).2 = set_job_id job_id (self s)
  | Raise _ => self (submit s).2 = self s
  end.
Proof.
  unfold submit, bind, get, lift, in_env, check_output, ret, update_self, modify.
  destruct (_get_submit_command _) as [argv|e]; simpl; [|done].
  destruct (proc_out _ _) as [out| | |]; simpl; [|done..].
  destruct (index _ _) as [field|e]; simpl; [|done].
  by destruct (int _) as [j|e].
Qed.

(** X5: a call of [submit] that returns [job_id] has stored it and changed
    nothing else on the object; a call that raises, for whatever reason,
    leaves the object as it was, so that no identifier is assigned; and
    when the command cannot be split, no process is started. *)
Theorem submit_assigns_only_on_success {collab : Collaborators} (s : state) :
  match (submit s).1 with
  | Return job_id => self (submit s).2 = set_job_id job_id (self s)
  | Raise e =>
      self (submit s).2 = self s ∧
      (_get_submit_command (self s) = Raise e -> (submit s).2 = s)
  end.
Proof.
  pose proof (submit_object s) as Hobj.
  destruct (submit s).1 as [j|e] eqn:Hres; [done|]. split; [done|].
  intros Hcmd. unfold submit, bind, get, lift. simpl. rewrite Hcmd. by destruct s.
Qed.

Lemma submit_assigns_only_on_success_witness :
  self (@submit plain (fresh job0 (quiet "sbatch: error"))).2 = job0.
Proof.
  exact (proj1 (@submit_assigns_only_on_success plain (fresh job0 (quiet "sbatch: error")))).
Defined.

Lemma status_object {collab : Collaborators} (s : state) :
  self (status s).2 = self s ∨ ∃ code, self (status s).2 = set_exitcode code (self s).
Proof.
  unfold status, status_body, _get_sacct_entry, bind, get, lift, in_env, check_output, ret,
    update_self, modify.
  destruct (_get_sacct_command _ _ _ _ _) as [argv|e]; simpl; [|by left].
  destruct (proc_out _ _) as [out| | |]; simpl; [|by left..].
  destruct (1 <? _)%nat; simpl; [|by left].
  destruct (sacct_entries _ _) as [m|e]; simpl; [|by left].
  destruct (getitem m "finished") as [st|e]; simpl; [|by left].
  destruct (in_run_states st); simpl; [by left|].
  destruct (getitem m "success") as [code|e]; simpl; [|by left].
  right. by exists code.
Qed.

(** What one call may do to the object. *)
Lemma run_op_object {collab : Collaborators} (o : op) (s : state) :
  self (run_op o s) = self s ∨
  (o = OpSubmit ∧ ∃ j, self (run_op o s) = set_job_id j (self s)) ∨
  (o ≠ OpSubmit ∧ o ≠ OpCancel ∧ ∃ code, self (run_op o s) = set_exitcode code (self s)).
Proof.
  destruct o; simpl.
  - pose proof (submit_object s) as Hobj.
    destruct (submit s).1 as [j|e]; [|by left]. right; left. split; [done|]. by exists j.
  - by left.
  - destruct (status_object s) as [?|[code ?]]; [by left|].
    right; right. repeat split; [done..|]. by exists code.
  - rewrite exitcode_unfold. destruct (_exitcode (self s)); simpl; [by left|].
    destruct (status_object s) as [?|[code ?]]; [by left|].
    right; right. repeat split; [done..|]. by exists code.
Qed.

(** X6: no sequence of calls changes the attributes that describe the job
    (name, log, run script, run arguments and the batch options); the
    identifier changes only in a sequence that contains [submit]; and an
    exit code, once stored, is never removed. *)
Theorem calls_keep_job_description {collab : Collaborators} (ops : list op) (s : state) :
  same_spec (self (run_ops ops s)) (self s) ∧
  (OpSubmit ∉ ops -> _job_id (self (run_ops ops s)) = _job_id (self s)) ∧
  (is_Some (_exitcode (self s)) -> is_Some (_exitcode (self (run_ops ops s)))).
Proof.
  unfold run_ops. revert s. induction ops as [|o ops IH]; intros s; simpl.
  - by repeat split.
  - destruct (IH (run_op o s)) as (Hspec & Hid & Hcode).
    destruct (run_op_object o s) as [Hsame|[[-> [j Hj]]|(Hns & _ & code & Hc)]].
    + rewrite Hsame in *. split; [done|]. split; [|done].
      intros Hno. apply Hid. intros Hin. apply Hno. by right.
    + split; [|split].
      * rewrite Hj in Hspec. exact Hspec.
      * intros Hno. destruct Hno. by left.
      * intros Hsome. apply Hcode. by rewrite Hj.
    + split; [|split].
      * rewrite Hc in Hspec. exact Hspec.
      * intros Hno. rewrite Hid, Hc; [done|]. intros Hin. apply Hno. by right.
      * intros _. apply Hcode. rewrite Hc. by eexists.
Qed.

Lemma calls_keep_job_description_witness :
  same_spec
    (self (@run_ops plain [OpStatus; OpCancel; OpExitcode]
             (fresh job1 (quiet (lines ["JobID|State|ExitCode"; "7|FAILED|1:0"])))))
    job1 ∧
  _job_id (self (@run_ops plain [OpStatus; OpCancel; OpExitcode]
                   (fresh job1 (quiet (lines ["JobID|State|ExitCode"; "7|FAILED|1:0"])))))
  = None.
Proof.
  destruct (@calls_keep_job_description plain [OpStatus; OpCancel; OpExitcode]
              (fresh job1 (quiet (lines ["JobID|State|ExitCode"; "7|FAILED|1:0"]))))
    as (Hspec & Hid & _).
  split; [exact Hspec|]. apply Hid.
  apply (bool_decide_unpack (OpSubmit ∉ [OpStatus; OpCancel; OpExitcode])). exact I.
Defined.

(** ** Further properties: the listener *)

(** X7: a poll with a data row that has not three columns, or whose
    identifier is neither a step identifier nor an integer (a job step such
    as [4242.0]), ends the loop with [ValueError]: the query was made, and
    nothing is put on the queue, the listener does not sleep and makes no
    further query, however many rounds were to follow. *)
Theorem listen_malformed_poll {order : SetOrder}
    (n : nat) (command : list string) (interval : Z) (w : world) (out : string) :
  proc_out w (length (spawned w)) = Prints out ->
  forallb poll_row_ok (data_rows out) = false ->
  listen (S n) command interval w = (Raise ValueError, spawned_one command w).
Proof.
  intros Hout Hbad. cbn [listen].
  unfold bind at 1. unfold listen_iteration, bind, lift, check_output.
  rewrite Hout. fold (data_rows out). by rewrite scan_rows_bad.
Qed.

Lemma listen_malformed_poll_witness :
  @listen insertion_order 3 ["sacct"] 1
    (quiet (lines ["JobID|State|ExitCode"; "4242|COMPLETED|0:0"; "4242.0|COMPLETED|0:0"]))
  = (Raise ValueError,
     spawned_one ["sacct"]
       (quiet (lines ["JobID|State|ExitCode"; "4242|COMPLETED|0:0"; "4242.0|COMPLETED|0:0"]))).
Proof.
  exact (@listen_malformed_poll insertion_order 2 ["sacct"] 1
           (quiet (lines ["JobID|State|ExitCode"; "4242|COMPLETED|0:0"; "4242.0|COMPLETED|0:0"]))
           (lines ["JobID|State|ExitCode"; "4242|COMPLETED|0:0"; "4242.0|COMPLETED|0:0"])
           eq_refl eq_refl).
Defined.

(** X8: a query process that fails ends the loop with
    [CalledProcessError]; nothing is put on the queue for that round and
    the listener neither sleeps nor queries again. *)
Theorem listen_failed_query {order : SetOrder}
    (n : nat) (command : list string) (interval : Z) (w : world) :
  proc_out w (length (spawned w)) = Fails ->
  listen (S n) command interval w = (Raise CalledProcessError, spawned_one command w).
Proof.
  intros Hout. cbn [listen].
  unfold bind at 1. unfold listen_iteration, bind, lift, check_output.
  by rewrite Hout.
Qed.

Lemma listen_failed_query_witness :
  @listen insertion_order 2 ["sacct"] 1
    {| proc_out := fun _ => Fails; spawned := []; shell := []; queue := []; slept := [] |}
  = (Raise CalledProcessError,
     spawned_one ["sacct"]
       {| proc_out := fun _ => Fails; spawned := []; shell := []; queue := []; slept := [] |}).
Proof.
  exact (@listen_failed_query insertion_order 1 ["sacct"] 1
           {| proc_out := fun _ => Fails; spawned := []; shell := []; queue := []; slept := [] |}
           eq_refl).
Defined.









(** ** Further properties: commands and their composition *)

(** X12: run arguments given as a sequence of plain words come out as the
    last words of the submit command, one word each and in their order,
    after the words of the flags and the run script (nothing wrapping the
    line, the values and the script being plain words). *)
Theorem submit_command_sequence_args {collab : Collaborators} (o : Slurm) (l : list string) :
  run_args o = Some (ArgSeq l) ->
  forallb plain_word l = true ->
  get_command (command_line truthy o) = command_line truthy o ->
  forallb (fun f => implb (truthy f.2) (plain_word (fmt f.2))) (flag_fields o) = true ->
  plain_word (wrapper_get (run_script o)) = true ->
  _get_submit_command o = Return (command_words o ++ l)%list.
Proof.
  intros Hargs Hl Hwrap Hflags Hscript.
  unfold _get_submit_command. cbv zeta. rewrite submit_line_table, Hwrap.
  rewrite command_line_words, shlex_words by (by apply command_words_plain).
  rewrite Hargs. cbn [args_text]. by rewrite shlex_join.
Qed.

Lemma submit_command_sequence_args_witness :
  @_get_submit_command plain job1 =
    Return (@command_words plain job1 ++ ["-n"; "10"])%list.
Proof.
  exact (@submit_command_sequence_args plain job1 ["-n"; "10"]
           eq_refl eq_refl eq_refl eq_refl eq_refl).
Defined.

(** When the command is built, a call of [status] starts exactly that
    process, whatever becomes of it. *)
Lemma status_spawns {collab : Collaborators} (s : state) (argv : list string) :
  _get_sacct_command "Job,State,ExitCode" (_job_id (self s)) None
    (partition (self s)) (clusters (self s)) = Return argv ->
  spawned (env (status s).2) = (spawned (env s) ++ [argv])%list.
Proof.
  intros Hcmd.
  unfold status, status_body, _get_sacct_entry, bind, get, lift, in_env, check_output, ret,
    update_self, modify.
  rewrite Hcmd. simpl.
  destruct (proc_out _ _) as [out| | |]; simpl; [|done..].
  destruct (1 <? _)%nat; simpl; [|done].
  destruct (sacct_entries _ _) as [m|e]; simpl; [|done].
  destruct (getitem m "finished") as [st|e]; simpl; [|done].
  destruct (in_run_states st); simpl; [done|].
  by destruct (getitem m "success") as [code|e].
Qed.

(** X13: the identifier that [submit] read is the one [status] asks about:
    after a [submit] that returned [n] other than 0, the next [status]
    starts one process, [sacct] with the options of the partition and the
    clusters, then [-j] and the decimal text of [n], which reads back as
    [n], then [-P -o Job,State,ExitCode]. *)
Theorem status_asks_for_submitted_job {collab : Collaborators} (s : state) (n : Z) :
  (submit s).1 = Return n ->
  n ≠ 0 ->
  get_command (sacct_line "Job,State,ExitCode" (Some n) None (partition (self s))
                 (clusters (self s)))
  = sacct_line "Job,State,ExitCode" (Some n) None (partition (self s)) (clusters (self s)) ->
  plain_opt (partition (self s)) = true ->
  plain_opt (clusters (self s)) = true ->
  spawned (env (status (submit s).2).2) =
    (spawned (env (submit s).2)
     ++ [["sacct"]
         ++ (if truthy (partition (self s)) then ["-r"; fmt (partition (self s))] else [])
         ++ (if truthy (clusters (self s)) then ["-M"; fmt (clusters (self s))] else [])
         ++ ["-j"; str_of_int n]
         ++ ["-P"; "-o"; "Job,State,ExitCode"]])%list ∧
  py_int (str_of_int n) = Some n.
Proof.
  intros Hsub Hn Hwrap Hp Hc. split; [|apply py_int_str_of_int].
  pose proof (submit_object s) as Hobj. rewrite Hsub in Hobj.
  rewrite (status_spawns _ (sacct_words "Job,State,ExitCode" (Some n) None
                              (partition (self s)) (clusters (self s)))).
  - unfold sacct_words. by destruct n.
  - rewrite Hobj. simpl. by apply sacct_command_plain.
Qed.

Lemma status_asks_for_submitted_job_witness :
  spawned (env (@status plain
                  (@submit plain
                     (fresh job1
                        (two_polls (lines ["Submitted batch job 4242"])
                           (lines ["JobID|State|ExitCode"; "4242|RUNNING|0:0"])))).2).2)
  = (spawned (env (@submit plain
                     (fresh job1
                        (two_polls (lines ["Submitted batch job 4242"])
                           (lines ["JobID|State|ExitCode"; "4242|RUNNING|0:0"])))).2)
     ++ [["sacct"; "-r"; "long"; "-j"; "4242"; "-P"; "-o"; "Job,State,ExitCode"]])%list ∧
  py_int (str_of_int 4242) = Some 4242.
Proof.
  refine (@status_asks_for_submitted_job plain
            (fresh job1
               (two_polls (lines ["Submitted batch job 4242"])
                  (lines ["JobID|State|ExitCode"; "4242|RUNNING|0:0"])))
            4242 eq_refl _ eq_refl eq_refl eq_refl).
  discriminate.
Defined.

(** X14: the listener is scoped by user, partition and clusters and never
    by a job: with nothing wrapping the line and plain values,
    [get_listen_func] returns the loop over the one command [sacct] with the
    options [-r], [-M] and [-u] of the values that are set and
    [-P -o JobID,State,ExitCode]; a command that cannot be split is reported
    when the listener is made, before any query. *)
Theorem listen_func_command {collab : Collaborators} {order : SetOrder}
    (partition clusters : option string) :
  (get_command (sacct_line "JobID,State,ExitCode" None user partition clusters)
   = sacct_line "JobID,State,ExitCode" None user partition clusters ->
   plain_opt partition = true -> plain_opt clusters = true -> plain_opt user = true ->
   get_listen_func partition clusters =
     Return (fun n interval =>
               listen n
                 (["sacct"]
                  ++ (if truthy partition then ["-r"; fmt partition] else [])
                  ++ (if truthy clusters then ["-M"; fmt clusters] else [])
                  ++ (if truthy user then ["-u"; fmt user] else [])
                  ++ ["-P"; "-o"; "JobID,State,ExitCode"])%list interval)) ∧
  (∀ e, shlex_split
          (get_command (sacct_line "JobID,State,ExitCode" None user partition clusters))
        = Raise e ->
        get_listen_func partition clusters = Raise e).
Proof.
  split.
  - intros Hwrap Hp Hc Hu. unfold get_listen_func.
    by rewrite sacct_command_plain.
  - intros e He. unfold get_listen_func, _get_sacct_command. cbv zeta. by rewrite He.
Qed.

Lemma listen_func_command_witness :
  @get_listen_func plain insertion_order (Some "long") None =
    Return (fun n interval =>
              @listen insertion_order n
                ["sacct"; "-r"; "long"; "-u"; "alice"; "-P"; "-o"; "JobID,State,ExitCode"]
                interval).
Proof.
  exact (proj1 (@listen_func_command plain insertion_order (Some "long") None)
           eq_refl eq_refl eq_refl eq_refl).
Defined.

(** X15: after a [submit] that returned [n], [cancel] returns, hands the one
    line [scancel] followed by the decimal text of [n] (wrapped) to the
    shell, and leaves the object, the started processes and the recorded
    calls as [submit] left them. *)
Theorem cancel_submitted_job {collab : Collaborators} (s : state) (n : Z) :
  (submit s).1 = Return n ->
  cancel (submit s).2 =
    (Return tt,
     {| self := self (submit s).2;
        env := {| proc_out := proc_out (env (submit s).2);
                  spawned := spawned (env (submit s).2);
                  shell := (shell (env (submit s).2)
                            ++ [get_command ("scancel " ++ str_of_int n)])%list;
                  queue := queue (env (submit s).2);
                  slept := slept (env (submit s).2) |};
        calls := calls (submit s).2 |}) ∧
  _job_id (self (cancel (submit s).2).2) = Some n.
Proof.
  intros Hsub. pose proof (submit_object s) as Hobj. rewrite Hsub in Hobj.
  unfold cancel, bind, get, in_env, os_system, modify. simpl.
  by rewrite Hobj.
Qed.

Lemma cancel_submitted_job_witness :
  shell (env (@cancel plain
                (@submit plain (fresh job0 (quiet (lines ["Submitted batch job 4242"])))).2).2)
  = ["scancel 4242"].
Proof.
  exact (f_equal (fun r => shell (env r.2))
           (proj1 (@cancel_submitted_job plain
                     (fresh job0 (quiet (lines ["Submitted batch job 4242"]))) 4242 eq_refl))).
Defined.

(** X16: whenever the first loop of the listener gets through the rows of a
    poll, the second loop gets through the set of identifiers: every
    identifier of the set has an entry in [return_states] and in
    [return_exitcodes], so that neither lookup raises [KeyError]. *)
Theorem listen_lookups_never_fail {order : SetOrder} (rows : list string) (sc : scan) :
  scan_rows rows scan0 = Return sc ->
  ∃ res_dict, build_results (iter_set (job_ids sc)) sc [] = Return res_dict.
Proof.
  intros Hscan. destruct (forallb poll_row_ok rows) eqn:Hok.
  - rewrite scan_rows_spec in Hscan by done. injection Hscan as <-.
    rewrite fold_add_row_ids. simpl. eexists. apply build_results_spec.
    + apply iter_set_NoDup.
    + intros j. by rewrite iter_set_elem.
    + intros j _. apply not_elem_of_nil.
  - by rewrite scan_rows_bad in Hscan.
Qed.

Lemma listen_lookups_never_fail_witness :
  ∃ res_dict,
    build_results
      (@iter_set ascending_order
         (job_ids (fold_left add_row [(11, "FAILED", "1:0"); (10, "RUNNING", "0:0")] scan0)))
      (fold_left add_row [(11, "FAILED", "1:0"); (10, "RUNNING", "0:0")] scan0) []
    = Return res_dict.
Proof.
  exact (@listen_lookups_never_fail ascending_order ["11|FAILED|1:0"; "10|RUNNING|0:0"]
           (fold_left add_row [(11, "FAILED", "1:0"); (10, "RUNNING", "0:0")] scan0) eq_refl).
Defined.


